(** * ParametricSVG equation evaluator (js/equations.js)

    A shallow embedding of [evaluateEquation] and of the four functions
    nested in it ([substituteVariables], [checkParentheses],
    [resolveParentheses], [evaluateOperations], [parseValue]), with the
    part of the JavaScript runtime they rely on: string slicing and
    searching, the two regular expressions, and IEEE 754 numbers.

    Conventions of the model.
    - A JavaScript string is a [string]; each [ascii] stands for one
      UTF-16 code unit below 256.
    - The [variables] object is a [gmap string Variable_]; every key owns
      its Variable object, and the mapping is threaded through the
      evaluator as state because the code writes to it in place.
    - A call either returns, throws an [Error], or needs more recursion
      than the [fuel] it was given ([OutOfFuel]). *)

From Stdlib Require Import ZArith Ascii String Bool Lia DecimalString.
From Stdlib Require Import Floats.SpecFloat.
From stdpp Require Import base option list gmap strings.

Local Open Scope string_scope.
Local Open Scope Z_scope.

(** ** JavaScript strings *)

Module JSString.

(** [s.length] *)
Definition len (s : string) : Z := Z.of_nat (String.length s).

(** An index argument of [slice]: negative counts from the end, and
    the result is clamped to [0 .. s.length]. *)
Definition clampIndex (s : string) (i : Z) : Z :=
  if i <? 0 then Z.max (len s + i) 0 else Z.min i (len s).

(** [s.slice(start, end)] *)
Definition slice (s : string) (start stop : Z) : string :=
  let from := clampIndex s start in
  let to := clampIndex s stop in
  String.substring (Z.to_nat from) (Z.to_nat (to - from)) s.

(** [s.slice(start)] *)
Definition sliceFrom (s : string) (start : Z) : string :=
  slice s start (len s).

(** [s.indexOf(pattern)], [-1] when the pattern does not occur. *)
Definition indexOf (s pattern : string) : Z :=
  match String.index 0 pattern s with
  | Some n => Z.of_nat n
  | None => -1
  end.

(** [s.startsWith(p)] *)
Definition startsWith (s p : string) : bool := String.prefix p s.

(** [s.split(sep)] for a separator of one code unit. *)
Fixpoint split (sep : ascii) (s : string) : list string :=
  match s with
  | EmptyString => [EmptyString]
  | String c rest =>
      if Ascii.eqb c sep then EmptyString :: split sep rest
      else match split sep rest with
           | [] => [String c EmptyString]
           | piece :: pieces => String c piece :: pieces
           end
  end.

(** WhiteSpace and LineTerminator code units below 256: TAB, LF, VT,
    FF, CR, SP and NBSP. They are what [trim] strips and what [\s]
    matches. *)
Definition isWhiteSpace (c : ascii) : bool :=
  let n := N_of_ascii c in
  (((9 <=? n) && (n <=? 13)) || (n =? 32) || (n =? 160))%N.

Fixpoint trimStart (s : string) : string :=
  match s with
  | EmptyString => EmptyString
  | String c rest => if isWhiteSpace c then trimStart rest else s
  end.

Fixpoint rev (s : string) : string :=
  match s with
  | EmptyString => EmptyString
  | String c rest => rev rest ++ String c EmptyString
  end.

Definition trimEnd (s : string) : string := rev (trimStart (rev s)).

(** [s.trim()] *)
Definition trim (s : string) : string := trimEnd (trimStart s).

Definition isDigit (c : ascii) : bool :=
  let n := N_of_ascii c in ((48 <=? n) && (n <=? 57))%N.

Definition isLetter (c : ascii) : bool :=
  let n := N_of_ascii c in
  (((65 <=? n) && (n <=? 90)) || ((97 <=? n) && (n <=? 122)))%N.

End JSString.

(** ** Regular expressions

    A backtracking matcher in the style of the ECMAScript specification
    (a matcher takes a state and a continuation), for the constructs the
    two patterns of the source use. *)

Module RegExp.

Inductive regex : Type :=
| Chr (c : ascii)                  (* a literal or identity-escaped character *)
| Class (p : ascii -> bool)        (* [\d], [\s], [[a-z...]] *)
| Bol                              (* [^] without the m flag *)
| Eps                              (* the empty pattern *)
| Seq (r1 r2 : regex)
| Opt (r : regex)                  (* greedy [r?] *)
| Star (r : regex)                 (* greedy [r*] *)
| Group (name : string) (r : regex). (* [(?<name>r)]; [(?:r)] is [r] *)

(** Greedy [r+]. *)
Definition Plus (r : regex) : regex := Seq r (Star r).

(** A literal sequence of characters. *)
Fixpoint Lit (s : string) : regex :=
  match s with
  | EmptyString => Eps
  | String c EmptyString => Chr c
  | String c rest => Seq (Chr c) (Lit rest)
  end.

Record MatchState := { endIndex : nat; captures : list (string * string) }.

(** The result of [exec]: [m.index], [m[0]] and [m.groups]. *)
Record Match := { index : Z; matched : string; groups : list (string * string) }.

Section Matcher.
Variable input : string.

Definition step (x : MatchState) : MatchState :=
  {| endIndex := S (endIndex x); captures := captures x |}.

Definition capture (name : string) (x y : MatchState) : MatchState :=
  {| endIndex := endIndex y;
     captures := (name, String.substring (endIndex x) (endIndex y - endIndex x) input)
                   :: captures y |}.

(** A bound on the iterations of a [*]: each one consumes a character. *)
Definition iterations : nat := S (String.length input).

(** [matcher r x c]: match [r] at state [x], then continue with [c];
    alternatives are tried in priority order and the first success
    is the result. An iteration of [?] or [*] that consumes nothing
    is rejected, as RepeatMatcher does. *)
Fixpoint matcher (r : regex) (x : MatchState)
         (c : MatchState -> option MatchState) : option MatchState :=
  match r with
  | Chr ch =>
      match String.get (endIndex x) input with
      | Some a => if Ascii.eqb a ch then c (step x) else None
      | None => None
      end
  | Class p =>
      match String.get (endIndex x) input with
      | Some a => if p a then c (step x) else None
      | None => None
      end
  | Bol => if Nat.eqb (endIndex x) 0 then c x else None
  | Eps => c x
  | Seq r1 r2 => matcher r1 x (fun y => matcher r2 y c)
  | Opt r' =>
      match matcher r' x
              (fun y => if Nat.eqb (endIndex y) (endIndex x) then None else c y) with
      | Some z => Some z
      | None => c x
      end
  | Star r' =>
      (fix repeat (n : nat) (x : MatchState) {struct n} : option MatchState :=
         match n with
         | O => c x
         | S n' =>
             match matcher r' x
                     (fun y => if Nat.eqb (endIndex y) (endIndex x) then None
                               else repeat n' y) with
             | Some z => Some z
             | None => c x
             end
         end) iterations x
  | Group name r' => matcher r' x (fun y => c (capture name x y))
  end.

Definition matchAt (r : regex) (i : nat) : option Match :=
  match matcher r {| endIndex := i; captures := [] |} Some with
  | Some y => Some {| index := Z.of_nat i;
                      matched := String.substring i (endIndex y - i) input;
                      groups := captures y |}
  | None => None
  end.

(** Try the start positions [i, i+1, ..], [n] of them. *)
Fixpoint search (r : regex) (n i : nat) : option Match :=
  match n with
  | O => None
  | S n' =>
      match matchAt r i with
      | Some m => Some m
      | None => search r n' (S i)
      end
  end.

End Matcher.

Arguments iterations : simpl never.

(** [r.exec(input)] on a regular expression whose [lastIndex] is 0,
    which is the case at every [exec] of the source: both patterns are
    built afresh before they are used. The start positions are
    [0 .. input.length]. *)
Definition exec (r : regex) (input : string) : option Match :=
  search input r (S (String.length input)) 0.

(** [m.groups.name] *)
Fixpoint group (name : string) (gs : list (string * string)) : option string :=
  match gs with
  | [] => None
  | (n, v) :: rest => if String.eqb n name then Some v else group name rest
  end.

End RegExp.

(** ** JavaScript numbers

    The built-ins the evaluator applies to Numbers. The evaluator is
    defined over any implementation of them; [Binary64] below is the
    reference one. *)

Class JSNumber := {
  number : Type;
  Number : string -> number;                 (* [Number(s)] *)
  toString : number -> string;               (* the string a Number concatenates as *)
  isNaN : number -> bool;                    (* [isNaN(x)] *)
  Math_pow : number -> number -> number;     (* [Math.pow(a, b)] *)
  Math_floor : number -> number;             (* [Math.floor(a)] *)
  mul : number -> number -> number;          (* [a * b] *)
  div : number -> number -> number;          (* [a / b] *)
  rem : number -> number -> number;          (* [a % b] *)
  add : number -> number -> number;          (* [a + b] *)
  sub : number -> number -> number           (* [a - b] *)
}.

(** ** Values, variables and errors *)

(** What a [value] property holds: nothing ([undefined] or [null], which
    [== undefined] does not tell apart), a string or a Number. It is also
    what the evaluator's functions return, where it is never [Undefined]. *)
Inductive Value `{JSNumber} : Type :=
| Undefined
| Str (s : string)
| Num (n : number).

(** String concatenation with a value: [value + text], [text + value]. *)
Definition toStr `{JSNumber} (v : Value) : string :=
  match v with
  | Undefined => "undefined"
  | Str s => s
  | Num n => toString n
  end.

(** The [Variable] typedef ([Variable] is reserved, hence the name).
    [disabled] is the truthiness of the property; [name] and [comment],
    which the evaluator does not read, may be missing. *)
Record Variable_ `{JSNumber} : Type := {
  name : option string;
  value : Value;
  disabled : bool;
  comment : option string
}.

(** The [Variables] typedef: variable name to Variable object. *)
Notation Variables := (gmap string Variable_).

(** [v.value = x] *)
Definition setValue `{JSNumber} (x : Value) (v : Variable_) : Variable_ :=
  {| name := name v; value := x; disabled := disabled v; comment := comment v |}.

(** One constructor per [throw] of the source, with the strings the
    message is built from. *)
Inductive Error : Type :=
| FailedToSubstitute (variablename : string)              (* line 68 *)
| VariableIsDisabled (variablename equation : string)     (* line 72 *)
| CyclicalDependency (variablename equation : string)     (* line 76 *)
| SubstitutionNoOp (variablename eq equation : string)    (* line 87 *)
| MoreOpening (equation : string)                         (* line 103 *)
| MoreClosing (equation : string)                         (* line 105 *)
| MissingClosing (equation : string)                      (* line 127 *)
| FailedToResolve (eq equation : string)                  (* line 138 *)
| FailedToEvaluate (equation : string)                    (* line 199 *)
| EmptyString_ (equation : string)                        (* line 223 *)
| FailedToParse (equation : string).                      (* line 228 *)

Definition quote : string := String (ascii_of_nat 34) EmptyString.

(** [e.message] *)
Definition message (e : Error) : string :=
  match e with
  | FailedToSubstitute v => "Failed to substitute variable: " ++ v
  | VariableIsDisabled v eq => "Variable is disabled: " ++ v ++ " in " ++ eq
  | CyclicalDependency v eq => "Cyclical dependency: " ++ v ++ " in " ++ eq
  | SubstitutionNoOp v eq eq' =>
      "Failed to substitute variable: " ++ v ++ "in " ++ eq ++ " >>> result: " ++ eq'
  | MoreOpening eq => "More opening parentheses than closing: " ++ eq
  | MoreClosing eq => "More closing parentheses than opening: " ++ eq
  | MissingClosing eq => "Missing closing parenthesis: " ++ eq
  | FailedToResolve eq eq' => "Failed to resolve parentheses: " ++ eq ++ " >>> result: " ++ eq'
  | FailedToEvaluate eq => "Failed to evaluate operation: " ++ eq
  | EmptyString_ eq => "Empty String: " ++ quote ++ eq ++ quote
  | FailedToParse eq => "Failed to parse equation: " ++ eq
  end.

(** The kinds of failure the documentation of the engine tells apart. *)
Inductive ErrorKind : Type :=
| UndefinedVariable | DisabledVariable | CyclicDependency | ParenthesisMismatch
| ResolutionFailure | OperationFailure | EmptyExpression | ParseFailure.

Definition kind (e : Error) : ErrorKind :=
  match e with
  | FailedToSubstitute _ | SubstitutionNoOp _ _ _ => UndefinedVariable
  | VariableIsDisabled _ _ => DisabledVariable
  | CyclicalDependency _ _ => CyclicDependency
  | MoreOpening _ | MoreClosing _ | MissingClosing _ => ParenthesisMismatch
  | FailedToResolve _ _ => ResolutionFailure
  | FailedToEvaluate _ => OperationFailure
  | EmptyString_ _ => EmptyExpression
  | FailedToParse _ => ParseFailure
  end.

(** How a call ends: it returns, it throws, or the recursion budget of
    the model is used up before it does either. *)
Inductive Outcome (A : Type) : Type :=
| Returned (a : A)
| Thrown (e : Error)
| OutOfFuel.

Arguments Returned {A} a.
Arguments Thrown {A} e.
Arguments OutOfFuel {A}.

Definition bind {A B : Type} (o : Outcome A) (k : A -> Outcome B) : Outcome B :=
  match o with
  | Returned a => k a
  | Thrown e => Thrown e
  | OutOfFuel => OutOfFuel
  end.

Notation "'do' x <- o ; k" := (bind o (fun x => k))
  (at level 10, x name, o at level 100, k at level 200).

(** ** The evaluator *)

Section Evaluator.
Context `{JSNumber}.

Import JSString RegExp.

(** [/[a-zA-Z_][a-zA-Z0-9_]*/] *)
Definition identifierStart (c : ascii) : bool :=
  isLetter c || Ascii.eqb c "_".

Definition identifierPart (c : ascii) : bool :=
  isLetter c || isDigit c || Ascii.eqb c "_".

Definition VARIABLEREG : regex :=
  Seq (Class identifierStart) (Star (Class identifierPart)).

(** [-?\d+(?:\.\d+)?] *)
Definition numberPattern : regex :=
  Seq (Opt (Chr "-"))
      (Seq (Plus (Class isDigit))
           (Opt (Seq (Chr ".") (Plus (Class isDigit))))).

(** [new RegExp("(?:^\\+)?(?<a>-?\\d+(?:\\.\\d+)?)\\s*\\" + operator +
    "\\s*(?<b>-?\\d+(?:\\.\\d+)?)", "g")]. The backslash put before the
    operator escapes its first character, which then stands for itself,
    as the other characters of the operator do. *)
Definition operationRegExp (operator : string) : regex :=
  Seq (Opt (Seq Bol (Chr "+")))
      (Seq (Group "a" numberPattern)
           (Seq (Star (Class isWhiteSpace))
                (Seq (Lit operator)
                     (Seq (Star (Class isWhiteSpace))
                          (Group "b" numberPattern))))).

(** [match.groups.a] and [match.groups.b]; both groups take part in
    every match of [operationRegExp]. *)
Definition groupOf (m : Match) (name : string) : string :=
  default EmptyString (group name (groups m)).

(** *** parseValue (lines 217-232) *)
Definition parseValue (equation : string) : Outcome number :=
  if String.eqb (trim equation) EmptyString then Thrown (EmptyString_ equation)
  else
    let result := Number equation in
    if isNaN result then Thrown (FailedToParse equation)
    else Returned result.

(** *** evaluateOperations (lines 152-208) *)

Definition Operation : Type := string * (number -> number -> number).

Definition OPERATIONPRIORITY : list (list Operation) :=
  [ [ ("^", fun a b => Math_pow a b) ];
    [ ("*", fun a b => mul a b);
      ("//", fun a b => Math_floor (div a b));
      ("/", fun a b => div a b);
      ("%", fun a b => rem a b) ];
    [ ("+", fun a b => add a b);
      ("-", fun a b => sub a b) ] ].

(** The loop over the patterns of one tier (lines 172-186): [found] is
    the pair [match], [f] so far. *)
Fixpoint selectMatch (equation : string) (operation : list Operation)
         (found : option (Match * (number -> number -> number)))
  : option (Match * (number -> number -> number)) :=
  match operation with
  | [] => found
  | (operator, func) :: rest =>
      match exec (operationRegExp operator) equation with
      | None => selectMatch equation rest found
      | Some m =>
          match found with
          | None => selectMatch equation rest (Some (m, func))
          | Some (match_, _) =>
              if index m <? index match_
              then selectMatch equation rest (Some (m, func))
              else selectMatch equation rest found
          end
      end
  end.

(** The loop over the tiers (line 161), up to the first tier with a
    match (line 189). *)
Fixpoint firstMatch (equation : string) (tiers : list (list Operation))
  : option (Match * (number -> number -> number)) :=
  match tiers with
  | [] => None
  | operation :: rest =>
      match selectMatch equation operation None with
      | Some found => Some found
      | None => firstMatch equation rest
      end
  end.

Fixpoint evaluateOperations (fuel : nat) (equation : string) : Outcome number :=
  match fuel with
  | O => OutOfFuel
  | S fuel' =>
      match firstMatch equation OPERATIONPRIORITY with
      | Some (match_, f) =>
          do a <- parseValue (groupOf match_ "a");
          do b <- parseValue (groupOf match_ "b");
          let eq := equation in
          let equation :=
            slice equation 0 (index match_) ++ toString (f a b)
              ++ sliceFrom equation (index match_ + len (matched match_)) in
          if String.eqb eq equation then Thrown (FailedToEvaluate equation)
          else evaluateOperations fuel' equation
      | None => parseValue equation
      end
  end.

(** *** resolveParentheses (lines 115-143) *)
Fixpoint resolveParentheses (fuel : nat) (equation : string) : Outcome Value :=
  match fuel with
  | O => OutOfFuel
  | S fuel' =>
      let open := indexOf equation "(" in
      let close := indexOf equation ")" in
      if (open <? 0) && (close <? 0) then
        do result <- evaluateOperations fuel' equation;
        Returned (Num result)
      else if (0 <? open) && (close <? 0) then
        Thrown (MissingClosing equation)
      else if (open <? 0) || (close <? open) then
        do value <- resolveParentheses fuel' (slice equation 0 close);
        Returned (Str (toStr value ++ sliceFrom equation (close + 1)))
      else
        let eq := equation in
        do value <- resolveParentheses fuel' (sliceFrom equation (open + 1));
        let equation := slice equation 0 open ++ toStr value in
        if String.eqb eq equation then Thrown (FailedToResolve eq equation)
        else resolveParentheses fuel' equation
  end.

(** *** checkParentheses (lines 98-106): the error it throws, if any *)
Definition checkParentheses (equation : string) : option Error :=
  let open := Z.of_nat (length (split "(" equation)) - 1 in
  let close := Z.of_nat (length (split ")" equation)) - 1 in
  if open =? close then None
  else if close <? open then Some (MoreOpening equation)
  else Some (MoreClosing equation).

(** *** substituteVariables (lines 60-93)

    [self] is [evaluateEquation], which this function calls for a
    variable whose value is still a string. One unit of [fuel] is spent
    per turn of the [while] loop. The result carries the [variables]
    mapping as the call leaves it. *)
Fixpoint substituteVariables
         (self : string -> Variables -> option (list string) -> Outcome Value * Variables)
         (fuel : nat) (equation : string) (variables : Variables)
         (dependencies : list string) : Outcome Value * Variables :=
  match fuel with
  | O => (OutOfFuel, variables)
  | S fuel' =>
      match exec VARIABLEREG equation with
      | None =>
          match checkParentheses equation with
          | Some e => (Thrown e, variables)
          | None => (resolveParentheses fuel' equation, variables)
          end
      | Some variable =>
          let variablename := matched variable in
          match variables !! variablename with
          | None => (Thrown (FailedToSubstitute variablename), variables)
          | Some entry =>
              match value entry with
              | Undefined => (Thrown (FailedToSubstitute variablename), variables)
              | current =>
                  if disabled entry then
                    (Thrown (VariableIsDisabled variablename equation), variables)
                  else if bool_decide (variablename ∈ dependencies) then
                    (Thrown (CyclicalDependency variablename equation), variables)
                  else
                    let resolved :=
                      match current with
                      | Str formula =>
                          let depcopy := (dependencies ++ [variablename])%list in
                          match self formula variables (Some depcopy) with
                          | (Returned result, variables') =>
                              (Returned result,
                               alter (setValue result) variablename variables')
                          | failed => failed
                          end
                      | _ => (Returned current, variables)
                      end in
                    match resolved with
                    | (Returned v, variables) =>
                        let eq := equation in
                        let equation :=
                          slice equation 0 (index variable) ++ toStr v
                            ++ sliceFrom equation (index variable + len variablename) in
                        if String.eqb eq equation then
                          (Thrown (SubstitutionNoOp variablename eq equation), variables)
                        else substituteVariables self fuel' equation variables dependencies
                    | failed => failed
                    end
              end
          end
      end
  end.

(** *** evaluateEquation (lines 39-41 and 234-238)

    [dependencies] is [None] when the argument is left out. *)
Fixpoint evaluateEquation (fuel : nat) (equation : string) (variables : Variables)
         (dependencies : option (list string)) : Outcome Value * Variables :=
  match fuel with
  | O => (OutOfFuel, variables)
  | S fuel' =>
      let dependencies := default [] dependencies in
      let equation := if startsWith equation "=" then sliceFrom equation 1 else equation in
      substituteVariables (evaluateEquation fuel') fuel' equation variables dependencies
  end.

End Evaluator.

(** ** Reference Numbers: IEEE 754 binary64

    Numbers as [spec_float] with 53 bits of precision. The arithmetic is
    the one of [SpecFloat] (round to nearest, ties to even); the
    conversions from and to strings follow StringToNumber and
    Number::toString of ECMA-262. *)

Module Binary64.

Import JSString.

Definition prec : Z := 53.
Definition emax : Z := 1024.

Definition NaN : spec_float := S754_nan.

(** The Number nearest to [(-1)^negative * m * 10^e], for [0 <= m]. *)
Definition ofDecimal (negative : bool) (m e : Z) : spec_float :=
  if m =? 0 then S754_zero negative
  else if 0 <=? e then
    binary_normalize prec emax (cond_Zopp negative (m * 10 ^ e)) 0 negative
  else
    SFdiv prec emax (S754_finite negative (Z.to_pos m) 0)
          (S754_finite false (Z.to_pos (10 ^ (- e))) 0).

(** *** StringToNumber *)

Definition digitValue (c : ascii) : option Z :=
  let n := Z.of_N (N_of_ascii c) in
  if (48 <=? n) && (n <=? 57) then Some (n - 48)
  else if (97 <=? n) && (n <=? 102) then Some (n - 87)
  else if (65 <=? n) && (n <=? 70) then Some (n - 55)
  else None.

(** The longest prefix of digits below [radix]: its value, its length
    and the rest of the string. *)
Fixpoint readDigits (radix : Z) (s : string) (value : Z) (count : Z) : Z * Z * string :=
  match s with
  | EmptyString => (value, count, s)
  | String c rest =>
      match digitValue c with
      | Some d =>
          if d <? radix then readDigits radix rest (value * radix + d) (count + 1)
          else (value, count, s)
      | None => (value, count, s)
      end
  end.

(** ExponentPart, or nothing, up to the end of the literal. *)
Definition readExponent (s : string) : option Z :=
  match s with
  | EmptyString => Some 0
  | String c rest =>
      if Ascii.eqb c "e" || Ascii.eqb c "E" then
        let '(negative, rest) :=
          match rest with
          | String "-" r => (true, r)
          | String "+" r => (false, r)
          | _ => (false, rest)
          end in
        match readDigits 10 rest 0 0 with
        | (e, count, EmptyString) =>
            if 0 <? count then Some (cond_Zopp negative e) else None
        | _ => None
        end
      else None
  end.

(** StrUnsignedDecimalLiteral *)
Definition unsignedDecimal (negative : bool) (s : string) : spec_float :=
  if String.eqb s "Infinity" then S754_infinity negative
  else
    let '(ip, icount, rest) := readDigits 10 s 0 0 in
    let '(m, fcount, rest) :=
      match rest with
      | String "." r => readDigits 10 r ip 0
      | _ => (ip, 0, rest)
      end in
    if (icount + fcount =? 0) then NaN
    else match readExponent rest with
         | Some e => ofDecimal negative m (e - fcount)
         | None => NaN
         end.

(** NonDecimalIntegerLiteral after its prefix *)
Definition nonDecimal (radix : Z) (s : string) : spec_float :=
  match readDigits radix s 0 0 with
  | (m, count, EmptyString) => if 0 <? count then ofDecimal false m 0 else NaN
  | _ => NaN
  end.

Definition StringToNumber (s : string) : spec_float :=
  match trim s with
  | EmptyString => S754_zero false
  | String "-" rest => unsignedDecimal true rest
  | String "+" rest => unsignedDecimal false rest
  | String "0" (String c rest) as literal =>
      if Ascii.eqb c "x" || Ascii.eqb c "X" then nonDecimal 16 rest
      else if Ascii.eqb c "o" || Ascii.eqb c "O" then nonDecimal 8 rest
      else if Ascii.eqb c "b" || Ascii.eqb c "B" then nonDecimal 2 rest
      else unsignedDecimal false literal
  | literal => unsignedDecimal false literal
  end.

(** *** Arithmetic *)

Definition isNaN (x : spec_float) : bool :=
  match x with S754_nan => true | _ => false end.

(** The integer a Number is, when it is one. *)
Definition isInteger (x : spec_float) : option Z :=
  match x with
  | S754_zero _ => Some 0
  | S754_finite s m e =>
      let z := cond_Zopp s (Z.pos m) in
      if 0 <=? e then Some (z * 2 ^ e)
      else if Z.land (Z.pos m) (2 ^ (- e) - 1) =? 0 then Some (Z.shiftr z (- e))
      else None
  | _ => None
  end.

(** [Math.floor] *)
Definition floor (x : spec_float) : spec_float :=
  match x with
  | S754_finite s m e =>
      if 0 <=? e then x
      else binary_normalize prec emax (Z.shiftr (cond_Zopp s (Z.pos m)) (- e)) 0 false
  | _ => x
  end.

(** [a % b]: the remainder of the truncating division, which is exact
    and has the sign of the dividend. *)
Definition rem (x y : spec_float) : spec_float :=
  match x, y with
  | S754_nan, _ | _, S754_nan => NaN
  | S754_infinity _, _ => NaN
  | _, S754_zero _ => NaN
  | _, S754_infinity _ => x
  | S754_zero _, _ => x
  | S754_finite sx mx ex, S754_finite _ my ey =>
      let e := Z.min ex ey in
      let r := Z.rem (Z.pos mx * 2 ^ (ex - e)) (Z.pos my * 2 ^ (ey - e)) in
      binary_normalize prec emax (cond_Zopp sx r) e sx
  end.

Definition one : spec_float := S754_finite false 4503599627370496 (-52).

Definition isOddInteger (x : spec_float) : bool :=
  match isInteger x with Some z => Z.odd z | None => false end.

Definition isNegative (x : spec_float) : bool :=
  match x with
  | S754_zero s | S754_infinity s | S754_finite s _ _ => s
  | S754_nan => false
  end.

(** [Math.pow], after Number::exponentiate. ECMA-262 leaves the result
    for finite non-zero operands to the implementation: here it is the
    correctly rounded power when the exponent is an integer, and
    [approx base exponent] otherwise. *)
Definition pow (approx : spec_float -> spec_float -> spec_float)
           (base exponent : spec_float) : spec_float :=
  match exponent, base with
  | S754_nan, _ => NaN
  | S754_zero _, _ => one
  | _, S754_nan => NaN
  | _, S754_infinity s =>
      let s := s && isOddInteger exponent in
      if isNegative exponent then S754_zero s else S754_infinity s
  | _, S754_zero s =>
      let s := s && isOddInteger exponent in
      if isNegative exponent then S754_infinity s else S754_zero s
  | S754_infinity es, _ =>
      match SFcompare (SFabs base) one with
      | Some Gt => if es then S754_zero false else S754_infinity false
      | Some Lt => if es then S754_infinity false else S754_zero false
      | _ => NaN
      end
  | S754_finite _ _ _, S754_finite s m e =>
      match isInteger exponent with
      | Some n =>
          let s := s && Z.odd n in
          if 0 <? n then
            binary_normalize prec emax (cond_Zopp s (Z.pos m ^ n)) (e * n) s
          else
            SFdiv prec emax ((if s then SFopp one else one))
                  (S754_finite false (Z.to_pos (Z.pos m ^ (- n))) (e * (- n)))
      | None => if s then NaN else approx base exponent
      end
  end.

(** *** Number::toString, radix 10 *)

Definition decimal (z : Z) : string :=
  NilZero.string_of_uint (N.to_uint (Z.to_N z)).

Fixpoint zeros (n : nat) : string :=
  match n with O => EmptyString | S n' => String "0" (zeros n') end.

(** The [n] with [10^(n-1) <= p/q < 10^n], for positive [p] and [q]:
    [p/q] is divided by ten, or multiplied by ten, until it lies in
    [[1, 10)]. *)
Fixpoint scaleDown (fuel : nat) (p q n : Z) : Z :=
  match fuel with
  | O => n
  | S fuel' => if p <? 10 * q then n else scaleDown fuel' p (10 * q) (n + 1)
  end.

Fixpoint scaleUp (fuel : nat) (p q n : Z) : Z :=
  match fuel with
  | O => n
  | S fuel' => if q <=? p then n else scaleUp fuel' (10 * p) q (n - 1)
  end.

Definition decimalExponent (p q : Z) : Z :=
  if q <=? p then scaleDown (Z.to_nat (Z.log2 p)) p q 1
  else scaleUp (S (Z.to_nat (Z.log2 q))) p q 1.

(** The [k]-digit candidates for [s]: the two integers around
    [p/q / 10^(n-k)], the nearer first (the even one on a tie) and only
    one when it is exact. *)
Definition candidates (p q n k : Z) : list Z :=
  let num := if n - k <? 0 then p * 10 ^ (k - n) else p in
  let den := if n - k <? 0 then q else q * 10 ^ (n - k) in
  let lo := num / den in
  let r := num mod den in
  if r =? 0 then [lo]
  else match 2 * r ?= den with
       | Lt => [lo; lo + 1]
       | Gt => [lo + 1; lo]
       | Eq => if Z.even lo then [lo; lo + 1] else [lo + 1; lo]
       end.

(** The least [k], with [s] and [n], such that [s * 10^(n-k)] converts
    back to [x]; 17 digits always do. *)
Fixpoint shortest (count : nat) (x : spec_float) (p q n k : Z) : Z * Z * Z :=
  let roundTrips s := SFeqb (ofDecimal false s (n - k)) x in
  match count with
  | O => (hd 0 (candidates p q n k), k, n)
  | S count' =>
      match filter (fun s => roundTrips s = true) (candidates p q n k) with
      | s :: _ => if s =? 10 ^ k then (10 ^ (k - 1), k, n + 1) else (s, k, n)
      | [] => shortest count' x p q n (k + 1)
      end
  end.

(** Steps 5 to 9 of Number::toString on [s], [k] and [n]. *)
Definition format (s k n : Z) : string :=
  let digits := decimal s in
  if (k <=? n) && (n <=? 21) then digits ++ zeros (Z.to_nat (n - k))
  else if (0 <? n) && (n <=? 21) then
    slice digits 0 n ++ "." ++ sliceFrom digits n
  else if (-6 <? n) && (n <=? 0) then "0." ++ zeros (Z.to_nat (- n)) ++ digits
  else
    let exponent := (if n - 1 <? 0 then "-" else "+") ++ decimal (Z.abs (n - 1)) in
    if k =? 1 then digits ++ "e" ++ exponent
    else slice digits 0 1 ++ "." ++ sliceFrom digits 1 ++ "e" ++ exponent.

Definition toString (x : spec_float) : string :=
  match x with
  | S754_nan => "NaN"
  | S754_zero _ => "0"
  | S754_infinity s => if s then "-Infinity" else "Infinity"
  | S754_finite s m e =>
      let p := if 0 <=? e then Z.pos m * 2 ^ e else Z.pos m in
      let q := if 0 <=? e then 1 else 2 ^ (- e) in
      let '(digits, k, n) :=
        shortest 17 (S754_finite false m e) p q (decimalExponent p q) 1 in
      (if s then "-" else "") ++ format digits k n
  end.

(** The reference implementation of the built-ins. *)
Definition Numbers (approx : spec_float -> spec_float -> spec_float) : JSNumber :=
  Build_JSNumber spec_float StringToNumber toString isNaN (pow approx) floor
                 (SFmul prec emax) (SFdiv prec emax) rem
                 (SFadd prec emax) (SFsub prec emax).

End Binary64.

(** ** Vocabulary of the properties *)

(** The Number of an integer. *)
Definition ofZ (z : Z) : spec_float :=
  Binary64.ofDecimal (z <? 0) (Z.abs z) 0.

(** How many times a character occurs in a string. *)
Fixpoint occurrences (c : ascii) (s : string) : nat :=
  match s with
  | EmptyString => O
  | String c' rest => if Ascii.eqb c' c then S (occurrences c rest) else occurrences c rest
  end.

(** What a call may have done to [variables] when it leaves [variables']:
    an entry is as it was, or it is not on the dependency stack, held a
    string and has a new value, with its other properties as they were. *)
Definition changes `{JSNumber} (dependencies : list string)
           (variables variables' : Variables) : Prop :=
  forall x,
    variables' !! x = variables !! x \/
    ((x ∉ dependencies) /\
     exists entry formula result,
       variables !! x = Some entry /\ value entry = Str formula /\
       variables' !! x = Some (setValue result entry)).

(** What holds of a dependency stack built by the evaluator: no name
    twice, and every name is a variable that is enabled and whose value
    is a string, the formula being evaluated. *)
Definition stackOK `{JSNumber} (variables : Variables) (dependencies : list string) : Prop :=
  NoDup dependencies /\
  forall x, (x ∈ dependencies) ->
    exists entry formula,
      variables !! x = Some entry /\ value entry = Str formula /\ disabled entry = false.

(** The variables of the examples are objects with a [value] only, as in
    [{x: {value: "2"}}]. [noApprox] is the approximation of [Math.pow] used
    where an example needs one reference implementation (no example raises
    to a fractional power). *)
Definition valueOnly `{JSNumber} (v : Value) : Variable_ :=
  {| name := None; value := v; disabled := false; comment := None |}.

Definition noApprox (base exponent : spec_float) : spec_float := Binary64.NaN.

(** The text [evaluateEquation] works on: the equation without one
    leading [=] (line 235). *)
Definition stripped (equation : string) : string :=
  if JSString.startsWith equation "=" then JSString.sliceFrom equation 1 else equation.

(** [stackOK] as a test. *)
Definition stackOKb `{JSNumber} (variables : Variables) (dependencies : list string) : bool :=
  bool_decide (NoDup dependencies) &&
  forallb (fun x => match variables !! x with
                    | Some entry =>
                        match value entry with
                        | Str _ => negb (disabled entry)
                        | _ => false
                        end
                    | None => false
                    end) dependencies.

(** [evaluateEquation] with a guard at its entry: a call whose dependency
    stack fails [stackOKb] answers [junk]. It serves to state that the
    evaluator makes no such call: with the guard or without, the result
    is the same. *)
Fixpoint evaluateEquationGuarded `{JSNumber} (junk : Outcome Value * Variables)
         (fuel : nat) (equation : string) (variables : Variables)
         (dependencies : option (list string)) : Outcome Value * Variables :=
  match fuel with
  | O => (OutOfFuel, variables)
  | S fuel' =>
      if stackOKb variables (default [] dependencies) then
        substituteVariables (evaluateEquationGuarded junk fuel') fuel'
                            (stripped equation) variables (default [] dependencies)
      else junk
  end.

(** The error [checkParentheses] throws when the counts differ. *)
Definition mismatch (equation : string) : Error :=
  if (occurrences ")" equation <? occurrences "(" equation)%nat
  then MoreOpening equation else MoreClosing equation.

(** Every character of the string satisfies [p]. *)
Fixpoint every (p : ascii -> bool) (s : string) : bool :=
  match s with
  | EmptyString => true
  | String a rest => p a && every p rest
  end.

(** Every match of the pattern goes over a character that satisfies [p]. *)
Fixpoint consumes (p : ascii -> bool) (r : RegExp.regex) : Prop :=
  match r with
  | RegExp.Chr c => p c = true
  | RegExp.Class q => forall a, q a = true -> p a = true
  | RegExp.Seq r1 r2 => consumes p r1 \/ consumes p r2
  | RegExp.Group _ r' => consumes p r'
  | _ => False
  end.

(** ** Unfolding and recursion budget *)

Section Fuel.
Context `{JSNumber}.

Lemma bind_finished {A B : Type} (o : Outcome A) (k : A -> Outcome B) :
  bind o k <> OutOfFuel -> o <> OutOfFuel.
Proof. destruct o; simpl; congruence. Qed.

(** A call that ends within its budget ends the same way within any
    larger one. *)
Lemma evaluateOperations_fuel (fuel fuel' : nat) (equation : string) :
  (fuel <= fuel')%nat ->
  evaluateOperations fuel equation <> OutOfFuel ->
  evaluateOperations fuel' equation = evaluateOperations fuel equation.
Proof.
  revert fuel' equation.
  induction fuel as [|fuel IH]; intros fuel' equation Hle Hfin; [easy|].
  destruct fuel' as [|fuel']; [lia|].
  cbn [evaluateOperations] in *.
  destruct (firstMatch equation OPERATIONPRIORITY) as [[m f]|]; [|reflexivity].
  destruct (parseValue (groupOf m "a")) as [a| |]; [|reflexivity..].
  destruct (parseValue (groupOf m "b")) as [b| |]; [|reflexivity..].
  cbn [bind] in *.
  destruct (String.eqb _ _); [reflexivity|].
  apply IH; [lia|assumption].
Qed.

Lemma resolveParentheses_fuel (fuel fuel' : nat) (equation : string) :
  (fuel <= fuel')%nat ->
  resolveParentheses fuel equation <> OutOfFuel ->
  resolveParentheses fuel' equation = resolveParentheses fuel equation.
Proof.
  revert fuel' equation.
  induction fuel as [|fuel IH]; intros fuel' equation Hle Hfin; [easy|].
  destruct fuel' as [|fuel']; [lia|].
  cbn [resolveParentheses] in *.
  destruct (_ && _).
  { apply bind_finished in Hfin.
    rewrite (evaluateOperations_fuel fuel fuel') by (assumption || lia).
    reflexivity. }
  destruct (_ && _); [reflexivity|].
  destruct (_ || _).
  { pose proof (bind_finished _ _ Hfin) as Hsub.
    rewrite (IH fuel') by (assumption || lia). reflexivity. }
  pose proof (bind_finished _ _ Hfin) as Hsub.
  rewrite (IH fuel') by (assumption || lia).
  destruct (resolveParentheses fuel _) as [v| |]; [|reflexivity..].
  cbn [bind] in *.
  destruct (String.eqb _ _); [reflexivity|].
  apply IH; [lia|assumption].
Qed.

Lemma substituteVariables_fuel
      (self self' : string -> Variables -> option (list string) -> Outcome Value * Variables)
      (fuel fuel' : nat) (equation : string) (variables : Variables)
      (dependencies : list string) :
  (forall formula vars deps,
      fst (self formula vars deps) <> OutOfFuel ->
      self' formula vars deps = self formula vars deps) ->
  (fuel <= fuel')%nat ->
  fst (substituteVariables self fuel equation variables dependencies) <> OutOfFuel ->
  substituteVariables self' fuel' equation variables dependencies
  = substituteVariables self fuel equation variables dependencies.
Proof.
  intros Hself. revert fuel' equation variables.
  induction fuel as [|fuel IH]; intros fuel' equation variables Hle Hfin; [easy|].
  destruct fuel' as [|fuel']; [lia|].
  cbn [substituteVariables] in *.
  destruct (RegExp.exec VARIABLEREG equation) as [variable|].
  2:{ destruct (checkParentheses equation); [reflexivity|].
      cbn [fst] in Hfin.
      rewrite (resolveParentheses_fuel fuel fuel') by (assumption || lia).
      reflexivity. }
  destruct (variables !! RegExp.matched variable) as [entry|]; [|reflexivity].
  destruct (value entry) as [|formula|n]; [reflexivity| |].
  - destruct (disabled entry); [reflexivity|].
    destruct (bool_decide _); [reflexivity|].
    destruct (self formula variables _) as [[result| |] variables1] eqn:Hcall.
    + rewrite Hself by (rewrite Hcall; discriminate). rewrite Hcall.
      destruct (String.eqb _ _); [reflexivity|].
      apply IH; [lia|assumption].
    + rewrite Hself by (rewrite Hcall; discriminate). rewrite Hcall. reflexivity.
    + exfalso. apply Hfin. reflexivity.
  - destruct (disabled entry); [reflexivity|].
    destruct (bool_decide _); [reflexivity|].
    destruct (String.eqb _ _); [reflexivity|].
    apply IH; [lia|assumption].
Qed.

Lemma evaluateEquation_fuel (fuel fuel' : nat) (equation : string)
      (variables : Variables) (dependencies : option (list string)) :
  (fuel <= fuel')%nat ->
  fst (evaluateEquation fuel equation variables dependencies) <> OutOfFuel ->
  evaluateEquation fuel' equation variables dependencies
  = evaluateEquation fuel equation variables dependencies.
Proof.
  revert fuel' equation variables dependencies.
  induction fuel as [|fuel IH]; intros fuel' equation variables dependencies Hle Hfin;
    [easy|].
  destruct fuel' as [|fuel']; [lia|].
  cbn [evaluateEquation] in *.
  apply substituteVariables_fuel; [|lia|assumption].
  intros formula vars deps Hcall. apply IH; [lia|assumption].
Qed.

Lemma evaluateEquation_S (fuel : nat) (equation : string) (variables : Variables)
      (dependencies : option (list string)) :
  evaluateEquation (S fuel) equation variables dependencies
  = substituteVariables (evaluateEquation fuel) fuel (stripped equation) variables
                        (default [] dependencies).
Proof. reflexivity. Qed.

(** The form in which the lemmas above are used on examples. *)
Lemma evaluateEquation_enough (fuel extra : nat) (equation : string)
      (variables : Variables) (dependencies : option (list string))
      (result : Outcome Value * Variables) :
  evaluateEquation fuel equation variables dependencies = result ->
  fst result <> OutOfFuel ->
  evaluateEquation (fuel + extra) equation variables dependencies = result.
Proof.
  intros <- Hfin. apply evaluateEquation_fuel; [lia|assumption].
Qed.

End Fuel.

(** ** What a call does to the variables *)

Section Frame.
Context `{JSNumber}.

Lemma setValue_setValue (x y : Value) (entry : Variable_) :
  setValue x (setValue y entry) = setValue x entry.
Proof. reflexivity. Qed.

Lemma changes_refl (dependencies : list string) (variables : Variables) :
  changes dependencies variables variables.
Proof. intros x. left. reflexivity. Qed.

Lemma changes_trans (dependencies : list string) (v1 v2 v3 : Variables) :
  changes dependencies v1 v2 -> changes dependencies v2 v3 ->
  changes dependencies v1 v3.
Proof.
  intros H12 H23 x.
  destruct (H23 x) as [E23|(Hx & e2 & f2 & r2 & Ea2 & Eb2 & Ec2)];
    destruct (H12 x) as [E12|(Hx' & e1 & f1 & r1 & Ea1 & Eb1 & Ec1)].
  - left. congruence.
  - right. split; [assumption|]. exists e1, f1, r1. repeat split; congruence.
  - right. split; [assumption|]. exists e2, f2, r2. repeat split; congruence.
  - right. split; [assumption|]. exists e1, f1, r2. repeat split; try assumption.
    rewrite Ec2. f_equal.
    assert (e2 = setValue r1 e1) as -> by congruence.
    apply setValue_setValue.
Qed.

Lemma changes_weaken (dependencies dependencies' : list string) (v v' : Variables) :
  (forall x, (x ∈ dependencies) -> x ∈ dependencies') ->
  changes dependencies' v v' -> changes dependencies v v'.
Proof.
  intros Hsub Hch x.
  destruct (Hch x) as [E|(Hx & rest)]; [left; assumption|].
  right. split; [|assumption]. intros Hin. apply Hx, Hsub, Hin.
Qed.

(** The assignment of line 81, after the recursive call. *)
Lemma changes_write (dependencies : list string) (variables variables1 : Variables)
      (x : string) (entry : Variable_) (formula : string) (result : Value) :
  variables !! x = Some entry -> value entry = Str formula -> (x ∉ dependencies) ->
  changes (dependencies ++ [x])%list variables variables1 ->
  changes dependencies variables (alter (setValue result) x variables1).
Proof.
  intros Hentry Hvalue Hx Hch y.
  destruct (decide (y = x)) as [->|Hne].
  - right. split; [assumption|]. exists entry, formula, result.
    repeat split; try assumption.
    rewrite lookup_alter_eq.
    destruct (Hch x) as [E|(Hnot & _)].
    + rewrite E, Hentry. reflexivity.
    + exfalso. apply Hnot. apply elem_of_app. right. apply list_elem_of_singleton.
      reflexivity.
  - rewrite lookup_alter_ne by congruence.
    apply (changes_weaken dependencies (dependencies ++ [x])%list); [|assumption].
    intros z Hz. apply elem_of_app. left. assumption.
Qed.

Lemma substituteVariables_changes
      (self : string -> Variables -> option (list string) -> Outcome Value * Variables)
      (fuel : nat) (equation : string) (variables : Variables)
      (dependencies : list string) :
  (forall formula vars deps,
      changes (default [] deps) vars (snd (self formula vars deps))) ->
  changes dependencies variables
          (snd (substituteVariables self fuel equation variables dependencies)).
Proof.
  intros Hself. revert equation variables.
  induction fuel as [|fuel IH]; intros equation variables; [apply changes_refl|].
  cbn [substituteVariables].
  destruct (RegExp.exec VARIABLEREG equation) as [variable|].
  2:{ destruct (checkParentheses equation); apply changes_refl. }
  destruct (variables !! RegExp.matched variable) as [entry|] eqn:Hentry;
    [|apply changes_refl].
  destruct (value entry) as [|formula|n] eqn:Hvalue; [apply changes_refl| |].
  - destruct (disabled entry); [apply changes_refl|].
    destruct (bool_decide _) eqn:Hdep; [apply changes_refl|].
    apply bool_decide_eq_false in Hdep.
    pose proof (Hself formula variables
                      (Some (dependencies ++ [RegExp.matched variable])%list)) as Hcall.
    destruct (self formula variables _) as [[result| |] variables1]; cbn [snd default] in *.
    + pose proof (changes_write _ _ _ _ _ _ result Hentry Hvalue Hdep Hcall) as Hwrite.
      destruct (String.eqb _ _); [exact Hwrite|].
      eapply changes_trans; [exact Hwrite|apply IH].
    + eapply changes_weaken; [|exact Hcall].
      intros z Hz. apply elem_of_app. left. assumption.
    + eapply changes_weaken; [|exact Hcall].
      intros z Hz. apply elem_of_app. left. assumption.
  - destruct (disabled entry); [apply changes_refl|].
    destruct (bool_decide _); [apply changes_refl|].
    destruct (String.eqb _ _); [apply changes_refl|].
    apply IH.
Qed.

Lemma evaluateEquation_changes (fuel : nat) (equation : string)
      (variables : Variables) (dependencies : option (list string)) :
  changes (default [] dependencies) variables
          (snd (evaluateEquation fuel equation variables dependencies)).
Proof.
  revert equation variables dependencies.
  induction fuel as [|fuel IH]; intros equation variables dependencies;
    [apply changes_refl|].
  cbn [evaluateEquation].
  apply substituteVariables_changes. exact IH.
Qed.

End Frame.

Section FrameConsequences.
Context `{JSNumber}.

(** A Number, once it is the value of a variable, stays. *)
Lemma changes_Num (dependencies : list string) (variables variables' : Variables)
      (x : string) (entry : Variable_) (n : number) :
  changes dependencies variables variables' ->
  variables !! x = Some entry -> value entry = Num n ->
  variables' !! x = Some entry.
Proof.
  intros Hch Hentry Hvalue.
  destruct (Hch x) as [E|(_ & e & f & r & Ea & Eb & _)]; [congruence|].
  assert (e = entry) as -> by congruence. congruence.
Qed.

(** The entries of the variables on the dependency stack stay. *)
Lemma changes_stack (dependencies : list string) (variables variables' : Variables)
      (x : string) :
  changes dependencies variables variables' -> (x ∈ dependencies) ->
  variables' !! x = variables !! x.
Proof.
  intros Hch Hx. destruct (Hch x) as [E|(Hnot & _)]; [assumption|].
  exfalso. apply Hnot, Hx.
Qed.

Lemma changes_dom (dependencies : list string) (variables variables' : Variables) :
  changes dependencies variables variables' -> dom variables' = dom variables.
Proof.
  intros Hch. apply set_eq. intros x. rewrite !elem_of_dom.
  destruct (Hch x) as [E|(_ & e & f & r & Ea & _ & Ec)].
  - rewrite E. reflexivity.
  - rewrite Ea, Ec. split; intros _; eexists; reflexivity.
Qed.

Lemma changes_fields (dependencies : list string) (variables variables' : Variables)
      (x : string) (entry : Variable_) :
  changes dependencies variables variables' -> variables !! x = Some entry ->
  exists entry',
    variables' !! x = Some entry' /\ name entry' = name entry /\
    disabled entry' = disabled entry /\ comment entry' = comment entry.
Proof.
  intros Hch Hentry.
  destruct (Hch x) as [E|(_ & e & f & r & Ea & _ & Ec)].
  - exists entry. rewrite E. auto.
  - assert (e = entry) as -> by congruence.
    exists (setValue r entry). auto.
Qed.

End FrameConsequences.

(** ** Patterns on texts without the characters they need *)

Section NoMatch.
Import RegExp.
Variable input : string.

Lemma matcher_continuation_fails (r : regex) (x : MatchState)
      (c : MatchState -> option MatchState) :
  (forall y, c y = None) -> matcher input r x c = None.
Proof.
  revert x c. induction r as [ch|q| | |r1 IH1 r2 IH2|r' IH|r' IH|name r' IH];
    intros x c Hc; cbn [matcher].
  - destruct (String.get _ _); [destruct (Ascii.eqb _ _)|]; auto.
  - destruct (String.get _ _); [destruct (q _)|]; auto.
  - destruct (Nat.eqb _ _); auto.
  - auto.
  - apply IH1. intros y. apply IH2, Hc.
  - rewrite IH; [apply Hc|]. intros y. destruct (Nat.eqb _ _); auto.
  - generalize (iterations input). intros n. revert x.
    induction n as [|n IHn]; intros x; [apply Hc|].
    rewrite IH; [apply Hc|]. intros y. destruct (Nat.eqb _ _); auto.
  - apply IH. intros y. apply Hc.
Qed.

Variable p : ascii -> bool.
Hypothesis absent : forall i a, String.get i input = Some a -> p a = false.

Lemma matcher_consumes (r : regex) (x : MatchState)
      (c : MatchState -> option MatchState) :
  consumes p r -> matcher input r x c = None.
Proof.
  revert x c. induction r as [ch|q| | |r1 IH1 r2 IH2|r' IH|r' IH|name r' IH];
    intros x c Hr; cbn [matcher consumes] in *; try contradiction.
  - destruct (String.get _ _) as [a|] eqn:Hget; [|reflexivity].
    destruct (Ascii.eqb_spec a ch) as [->|]; [|reflexivity].
    apply absent in Hget. congruence.
  - destruct (String.get _ _) as [a|] eqn:Hget; [|reflexivity].
    destruct (q a) eqn:Hq; [|reflexivity].
    apply absent in Hget. apply Hr in Hq. congruence.
  - destruct Hr as [Hr|Hr]; [apply IH1, Hr|].
    apply matcher_continuation_fails. intros y. apply IH2, Hr.
  - apply IH, Hr.
Qed.

Lemma search_consumes (r : regex) (n i : nat) :
  consumes p r -> search input r n i = None.
Proof.
  intros Hr. revert i. induction n as [|n IH]; intros i; [reflexivity|].
  cbn [search]. unfold matchAt. rewrite matcher_consumes by assumption. apply IH.
Qed.

End NoMatch.

Lemma exec_consumes (p : ascii -> bool) (r : RegExp.regex) (input : string) :
  (forall i a, String.get i input = Some a -> p a = false) ->
  consumes p r -> RegExp.exec r input = None.
Proof. intros Habsent Hr. apply (search_consumes input p Habsent), Hr. Qed.

Lemma get_every (p : ascii -> bool) (s : string) (i : nat) (a : ascii) :
  every p s = true -> String.get i s = Some a -> p a = true.
Proof.
  revert i. induction s as [|b rest IH]; intros i Hall Hget; [discriminate|].
  cbn [every] in Hall. apply andb_true_iff in Hall as [Hb Hrest].
  destruct i as [|i]; cbn [String.get] in Hget.
  - congruence.
  - eapply IH; eassumption.
Qed.

(** ** Texts without identifiers, digits or parentheses *)

Section Absent.
Context `{JSNumber}.
Variable p : ascii -> bool.
Variable text : string.
Hypothesis Hevery : every p text = true.

Lemma every_absent (q : ascii -> bool) :
  (forall a, p a = true -> q a = false) ->
  forall i a, String.get i text = Some a -> q a = false.
Proof. intros Hpq i a Hget. eapply Hpq, get_every; eassumption. Qed.

Lemma exec_VARIABLEREG_absent :
  (forall a, p a = true -> identifierStart a = false) ->
  RegExp.exec VARIABLEREG text = None.
Proof.
  intros Hpq. apply (exec_consumes identifierStart); [apply every_absent, Hpq|].
  left. intros a Ha. exact Ha.
Qed.

Lemma exec_operationRegExp_absent (operator : string) :
  (forall a, p a = true -> JSString.isDigit a = false) ->
  RegExp.exec (operationRegExp operator) text = None.
Proof.
  intros Hpq. apply (exec_consumes JSString.isDigit); [apply every_absent, Hpq|].
  right. left. cbn. right. left. left. intros a Ha. exact Ha.
Qed.

Lemma selectMatch_absent (operation : list Operation)
      (found : option (RegExp.Match * (number -> number -> number))) :
  (forall a, p a = true -> JSString.isDigit a = false) ->
  selectMatch text operation found = found.
Proof.
  intros Hpq. induction operation as [|[operator func] rest IH]; [reflexivity|].
  cbn [selectMatch]. rewrite exec_operationRegExp_absent by assumption. exact IH.
Qed.

Lemma firstMatch_absent (tiers : list (list Operation)) :
  (forall a, p a = true -> JSString.isDigit a = false) ->
  firstMatch text tiers = None.
Proof.
  intros Hpq. induction tiers as [|operation rest IH]; [reflexivity|].
  cbn [firstMatch]. rewrite selectMatch_absent by assumption. exact IH.
Qed.

End Absent.

Lemma occurrences_absent (p : ascii -> bool) (c : ascii) (s : string) :
  every p s = true -> p c = false -> occurrences c s = O.
Proof.
  intros Hall Hc. induction s as [|a rest IH]; [reflexivity|].
  cbn [every occurrences] in *. apply andb_true_iff in Hall as [Ha Hrest].
  destruct (Ascii.eqb_spec a c) as [->|]; [congruence|]. apply IH, Hrest.
Qed.

Lemma indexOf_absent (p : ascii -> bool) (c : ascii) (s : string) :
  every p s = true -> p c = false ->
  JSString.indexOf s (String c EmptyString) = -1.
Proof.
  intros Hall Hc. unfold JSString.indexOf.
  enough (String.index 0 (String c EmptyString) s = None) as -> by reflexivity.
  induction s as [|a rest IH]; [reflexivity|].
  cbn [every] in Hall. apply andb_true_iff in Hall as [Ha Hrest].
  cbn [String.index String.prefix].
  destruct (ascii_dec c a) as [->|]; [congruence|].
  rewrite IH by assumption. reflexivity.
Qed.

(** [split] cuts at every occurrence of the separator: [checkParentheses]
    compares the numbers of the two parentheses. *)
Lemma length_split (c : ascii) (s : string) :
  length (JSString.split c s) = S (occurrences c s).
Proof.
  induction s as [|a rest IH]; [reflexivity|].
  cbn [JSString.split occurrences].
  destruct (Ascii.eqb a c); cbn [length]; [congruence|].
  destruct (JSString.split c rest); cbn [length] in *; congruence.
Qed.

Lemma checkParentheses_occurrences `{JSNumber} (equation : string) :
  checkParentheses equation
  = match Nat.compare (occurrences "(" equation) (occurrences ")" equation) with
    | Eq => None
    | Gt => Some (MoreOpening equation)
    | Lt => Some (MoreClosing equation)
    end.
Proof.
  unfold checkParentheses. rewrite !length_split.
  destruct (Nat.compare_spec (occurrences "(" equation) (occurrences ")" equation)).
  - rewrite (proj2 (Z.eqb_eq _ _)) by lia. reflexivity.
  - rewrite (proj2 (Z.eqb_neq _ _)) by lia.
    rewrite (proj2 (Z.ltb_ge _ _)) by lia. reflexivity.
  - rewrite (proj2 (Z.eqb_neq _ _)) by lia.
    rewrite (proj2 (Z.ltb_lt _ _)) by lia. reflexivity.
Qed.

(** ** Blank texts *)

Lemma whitespace_not_identifierStart (a : ascii) :
  JSString.isWhiteSpace a = true -> identifierStart a = false.
Proof. destruct a as [[] [] [] [] [] [] [] []]; intros Hws; solve [reflexivity | discriminate]. Qed.

Lemma whitespace_not_digit (a : ascii) :
  JSString.isWhiteSpace a = true -> JSString.isDigit a = false.
Proof. destruct a as [[] [] [] [] [] [] [] []]; intros Hws; solve [reflexivity | discriminate]. Qed.

Lemma trimStart_blank (s : string) :
  every JSString.isWhiteSpace s = true -> JSString.trimStart s = EmptyString.
Proof.
  induction s as [|a rest IH]; [reflexivity|].
  cbn [every JSString.trimStart]. intros [Ha Hrest]%andb_true_iff.
  rewrite Ha. apply IH, Hrest.
Qed.

Lemma trim_blank (s : string) :
  every JSString.isWhiteSpace s = true -> JSString.trim s = EmptyString.
Proof. intros Hs. unfold JSString.trim. rewrite trimStart_blank by assumption. reflexivity. Qed.

Lemma trimStart_nonblank (s : string) :
  every JSString.isWhiteSpace s = false ->
  exists a rest, JSString.trimStart s = String a rest /\ JSString.isWhiteSpace a = false.
Proof.
  induction s as [|a rest IH]; [discriminate|].
  cbn [every JSString.trimStart]. intros Hs.
  destruct (JSString.isWhiteSpace a) eqn:Ha.
  - apply IH. exact Hs.
  - exists a, rest. split; [reflexivity|assumption].
Qed.

Lemma append_cons (a : ascii) (s t : string) : String a s ++ t = String a (s ++ t).
Proof. reflexivity. Qed.

Lemma trimStart_last (s : string) (a : ascii) :
  JSString.isWhiteSpace a = false ->
  JSString.trimStart (s ++ String a EmptyString) <> EmptyString.
Proof.
  intros Ha. induction s as [|b rest IH].
  - change (EmptyString ++ String a EmptyString) with (String a EmptyString).
    cbn [JSString.trimStart]. rewrite Ha. discriminate.
  - rewrite append_cons. cbn [JSString.trimStart].
    destruct (JSString.isWhiteSpace b); [exact IH|discriminate].
Qed.

Lemma rev_nonempty (s : string) : s <> EmptyString -> JSString.rev s <> EmptyString.
Proof.
  destruct s as [|a rest]; [congruence|]. intros _. cbn [JSString.rev].
  destruct (JSString.rev rest); [discriminate|rewrite append_cons; discriminate].
Qed.

Lemma trim_nonblank (s : string) :
  every JSString.isWhiteSpace s = false -> JSString.trim s <> EmptyString.
Proof.
  intros Hs. destruct (trimStart_nonblank s Hs) as (a & rest & Hstart & Ha).
  unfold JSString.trim, JSString.trimEnd. rewrite Hstart.
  apply rev_nonempty. cbn [JSString.rev]. apply trimStart_last, Ha.
Qed.

Lemma stripped_blank (s : string) :
  every JSString.isWhiteSpace s = true -> stripped s = s.
Proof.
  unfold stripped, JSString.startsWith. destruct s as [|a rest]; [reflexivity|].
  cbn [every String.prefix]. intros [Ha _]%andb_true_iff.
  destruct (ascii_dec "=" a) as [<-|]; [discriminate|reflexivity].
Qed.

Lemma evaluateEquation_blank `{JSNumber} (fuel : nat) (equation : string)
      (variables : Variables) (dependencies : option (list string)) :
  every JSString.isWhiteSpace equation = true ->
  evaluateEquation (4 + fuel) equation variables dependencies
  = (Thrown (EmptyString_ equation), variables).
Proof.
  intros Hblank. change (4 + fuel)%nat with (S (S (S (S fuel)))).
  rewrite evaluateEquation_S, stripped_blank by assumption.
  cbn [substituteVariables].
  rewrite (exec_VARIABLEREG_absent _ _ Hblank) by apply whitespace_not_identifierStart.
  rewrite checkParentheses_occurrences.
  rewrite !(occurrences_absent _ _ _ Hblank) by reflexivity.
  cbn [Nat.compare resolveParentheses].
  rewrite !(indexOf_absent _ _ _ Hblank) by reflexivity.
  cbn [Z.ltb Z.compare andb evaluateOperations].
  rewrite (firstMatch_absent _ _ Hblank) by apply whitespace_not_digit.
  unfold parseValue. rewrite trim_blank by assumption. reflexivity.
Qed.

(** ** Parentheses are counted before they are resolved *)

Section Counted.
Context `{JSNumber}.

Lemma checkParentheses_mismatch (equation : string) :
  occurrences "(" equation <> occurrences ")" equation ->
  checkParentheses equation = Some (mismatch equation).
Proof.
  intros Hne. rewrite checkParentheses_occurrences. unfold mismatch.
  destruct (Nat.compare_spec (occurrences "(" equation) (occurrences ")" equation));
    [contradiction| |].
  - rewrite (proj2 (Nat.ltb_ge _ _)) by lia. reflexivity.
  - rewrite (proj2 (Nat.ltb_lt _ _)) by lia. reflexivity.
Qed.

Lemma checkParentheses_balanced (equation : string) :
  checkParentheses equation = None ->
  occurrences "(" equation = occurrences ")" equation.
Proof.
  rewrite checkParentheses_occurrences.
  destruct (Nat.compare_spec (occurrences "(" equation) (occurrences ")" equation));
    [trivial|discriminate..].
Qed.

Lemma substituteVariables_returned
      (self : string -> Variables -> option (list string) -> Outcome Value * Variables)
      (fuel : nat) (equation : string) (variables variables' : Variables)
      (dependencies : list string) (v : Value) :
  substituteVariables self fuel equation variables dependencies = (Returned v, variables') ->
  exists text fuel',
    RegExp.exec VARIABLEREG text = None /\
    occurrences "(" text = occurrences ")" text /\
    resolveParentheses fuel' text = Returned v.
Proof.
  revert equation variables. induction fuel as [|fuel IH]; intros equation variables;
    [discriminate|].
  cbn [substituteVariables].
  destruct (RegExp.exec VARIABLEREG equation) as [variable|] eqn:Hexec.
  2:{ destruct (checkParentheses equation) eqn:Hcheck; [discriminate|].
      intros [= Hres _]. exists equation, fuel.
      auto using checkParentheses_balanced. }
  destruct (variables !! RegExp.matched variable) as [entry|]; [|discriminate].
  destruct (value entry) as [|formula|n]; [discriminate| |].
  - destruct (disabled entry); [discriminate|].
    destruct (bool_decide _); [discriminate|].
    destruct (self formula variables _) as [[result| |] variables1]; [|discriminate..].
    destruct (String.eqb _ _); [discriminate|]. apply IH.
  - destruct (disabled entry); [discriminate|].
    destruct (bool_decide _); [discriminate|].
    destruct (String.eqb _ _); [discriminate|]. apply IH.
Qed.

End Counted.

(** ** The dependency stack *)

Section Stack.
Context `{JSNumber}.

Lemma stackOKb_spec (variables : Variables) (dependencies : list string) :
  stackOKb variables dependencies = true <-> stackOK variables dependencies.
Proof.
  unfold stackOKb, stackOK.
  rewrite andb_true_iff, bool_decide_eq_true, forallb_forall.
  split; intros [Hnodup Hall]; (split; [exact Hnodup|]); intros x Hx.
  - apply list_elem_of_In in Hx. specialize (Hall x Hx).
    destruct (variables !! x) as [entry|]; [|discriminate].
    destruct (value entry) as [|formula|] eqn:Hvalue; [discriminate| |discriminate].
    exists entry, formula. repeat split; [assumption|].
    apply negb_true_iff, Hall.
  - apply list_elem_of_In in Hx.
    destruct (Hall x Hx) as (entry & formula & -> & -> & ->). reflexivity.
Qed.

Lemma stackOK_nil (variables : Variables) : stackOK variables [].
Proof. split; [constructor|]. intros x Hx. inversion Hx. Qed.

Lemma stackOK_push (variables : Variables) (dependencies : list string) (x : string)
      (entry : Variable_) (formula : string) :
  stackOK variables dependencies -> (x ∉ dependencies) ->
  variables !! x = Some entry -> value entry = Str formula -> disabled entry = false ->
  stackOK variables (dependencies ++ [x])%list.
Proof.
  intros [Hnodup Hall] Hx Hentry Hvalue Hdis. split.
  - apply NoDup_app. repeat split; [assumption| |apply NoDup_singleton].
    intros y Hy ->%list_elem_of_singleton. contradiction.
  - intros y [Hy| ->%list_elem_of_singleton]%elem_of_app; [apply Hall, Hy|].
    exists entry, formula. auto.
Qed.

Lemma stackOK_changes (variables variables' : Variables) (dependencies : list string) :
  stackOK variables dependencies -> changes dependencies variables variables' ->
  stackOK variables' dependencies.
Proof.
  intros [Hnodup Hall] Hch. split; [assumption|]. intros x Hx.
  rewrite (changes_stack _ _ _ _ Hch Hx). apply Hall, Hx.
Qed.

(** The calls [substituteVariables] makes to [self] all pass a stack
    that is [stackOK]: what [self] does on others is of no import. *)
Lemma substituteVariables_stackOK
      (self self' : string -> Variables -> option (list string) -> Outcome Value * Variables)
      (fuel : nat) (equation : string) (variables : Variables)
      (dependencies : list string) :
  (forall formula vars deps,
      changes (default [] deps) vars (snd (self formula vars deps))) ->
  (forall formula vars x,
      (x ∉ dependencies) -> stackOK vars (dependencies ++ [x])%list ->
      self formula vars (Some (dependencies ++ [x])%list)
      = self' formula vars (Some (dependencies ++ [x])%list)) ->
  stackOK variables dependencies ->
  substituteVariables self fuel equation variables dependencies
  = substituteVariables self' fuel equation variables dependencies.
Proof.
  intros Hframe Hagree. revert equation variables.
  induction fuel as [|fuel IH]; intros equation variables Hok; [reflexivity|].
  cbn [substituteVariables].
  destruct (RegExp.exec VARIABLEREG equation) as [variable|]; [|reflexivity].
  destruct (variables !! RegExp.matched variable) as [entry|] eqn:Hentry; [|reflexivity].
  destruct (value entry) as [|formula|n] eqn:Hvalue; [reflexivity| |].
  - destruct (disabled entry) eqn:Hdis; [reflexivity|].
    destruct (bool_decide _) eqn:Hdep; [reflexivity|].
    apply bool_decide_eq_false in Hdep.
    rewrite <- Hagree by eauto using stackOK_push.
    pose proof (Hframe formula variables
                  (Some (dependencies ++ [RegExp.matched variable])%list)) as Hcall.
    destruct (self formula variables _) as [[result| |] variables1]; [|reflexivity..].
    destruct (String.eqb _ _); [reflexivity|].
    apply IH. eapply stackOK_changes; [exact Hok|].
    eapply changes_write; eassumption.
  - destruct (disabled entry); [reflexivity|].
    destruct (bool_decide _); [reflexivity|].
    destruct (String.eqb _ _); [reflexivity|].
    apply IH, Hok.
Qed.

Lemma evaluateEquation_guarded (junk : Outcome Value * Variables) (fuel : nat)
      (equation : string) (variables : Variables) (dependencies : option (list string)) :
  stackOK variables (default [] dependencies) ->
  evaluateEquation fuel equation variables dependencies
  = evaluateEquationGuarded junk fuel equation variables dependencies.
Proof.
  revert equation variables dependencies.
  induction fuel as [|fuel IH]; intros equation variables dependencies Hok; [reflexivity|].
  rewrite evaluateEquation_S. cbn [evaluateEquationGuarded].
  rewrite (proj2 (stackOKb_spec _ _) Hok).
  apply substituteVariables_stackOK; [|intros formula vars x _ Hx; apply IH, Hx| exact Hok].
  intros formula vars deps. apply evaluateEquation_changes.
Qed.

Lemma substituteVariables_cyclic
      (self : string -> Variables -> option (list string) -> Outcome Value * Variables)
      (fuel : nat) (equation : string) (variables : Variables)
      (dependencies : list string) (variable : RegExp.Match) :
  stackOK variables dependencies ->
  RegExp.exec VARIABLEREG equation = Some variable ->
  (RegExp.matched variable ∈ dependencies) ->
  substituteVariables self (S fuel) equation variables dependencies
  = (Thrown (CyclicalDependency (RegExp.matched variable) equation), variables).
Proof.
  intros [_ Hall] Hexec Hx. cbn [substituteVariables]. rewrite Hexec.
  destruct (Hall _ Hx) as (entry & formula & -> & -> & ->).
  rewrite bool_decide_eq_true_2 by assumption. reflexivity.
Qed.

End Stack.

(** ** The choice of the operation to apply *)

Section Selection.
Context `{JSNumber}.
Import RegExp.
Variable equation : string.

(** What [selectMatch] leaves: the pair it started with, when no
    operator of the tier has a match that starts further left; otherwise
    the match of an operator of the tier that starts further left than
    the pair it started with and than the matches of the operators before
    it, and not further right than those of the operators after it. *)
Lemma selectMatch_spec (operation : list Operation)
      (found : option (Match * (number -> number -> number))) :
  match selectMatch equation operation found with
  | None =>
      found = None /\
      forall operator func, In (operator, func) operation ->
                            exec (operationRegExp operator) equation = None
  | Some (m, f) =>
      (found = Some (m, f) /\
       forall operator func m',
         In (operator, func) operation ->
         exec (operationRegExp operator) equation = Some m' -> index m <= index m') \/
      (exists before operator after,
          operation = (before ++ (operator, f) :: after)%list /\
          exec (operationRegExp operator) equation = Some m /\
          (forall m0 f0, found = Some (m0, f0) -> index m < index m0) /\
          (forall operator' func m',
              In (operator', func) before ->
              exec (operationRegExp operator') equation = Some m' -> index m < index m') /\
          (forall operator' func m',
              In (operator', func) after ->
              exec (operationRegExp operator') equation = Some m' -> index m <= index m'))
  end.
Proof.
  revert found. induction operation as [|[operator1 func1] rest IH]; intros found.
  - cbn [selectMatch]. destruct found as [[m f]|].
    + left. split; [reflexivity|]. intros ? ? ? [].
    + split; [reflexivity|]. intros ? ? [].
  - cbn [selectMatch].
    destruct (exec (operationRegExp operator1) equation) as [m1|] eqn:Hexec1.
    2:{ specialize (IH found).
        destruct (selectMatch equation rest found) as [[m f]|].
        - destruct IH as [[Hfound Hrest]|(before & operator & after & -> & Hexec & Hlt & Hb & Ha)].
          + left. split; [assumption|].
            intros operator' func m' [[= <- <-]|Hin] Hexec'; [congruence|eauto].
          + right. exists ((operator1, func1) :: before), operator, after.
            repeat split; try assumption.
            intros operator' func m' [[= <- <-]|Hin] Hexec'; [congruence|eauto].
        - destruct IH as [Hfound Hrest]. split; [assumption|].
          intros operator' func [[= <- <-]|Hin]; eauto. }
    assert (Hnew :
              (forall m0 f0, found = Some (m0, f0) -> index m1 < index m0) ->
              match selectMatch equation rest (Some (m1, func1)) with
              | None => False
              | Some (m, f) =>
                  exists before operator after,
                    ((operator1, func1) :: rest = before ++ (operator, f) :: after)%list /\
                    exec (operationRegExp operator) equation = Some m /\
                    (forall m0 f0, found = Some (m0, f0) -> index m < index m0) /\
                    (forall operator' func m',
                        In (operator', func) before ->
                        exec (operationRegExp operator') equation = Some m' ->
                        index m < index m') /\
                    (forall operator' func m',
                        In (operator', func) after ->
                        exec (operationRegExp operator') equation = Some m' ->
                        index m <= index m')
              end).
    { intros Hfound. specialize (IH (Some (m1, func1))).
      destruct (selectMatch equation rest (Some (m1, func1))) as [[m f]|];
        [|destruct IH; discriminate].
      destruct IH as [[[= <- <-] Hrest]|(before & operator & after & -> & Hexec & Hlt & Hb & Ha)].
      - exists [], operator1, rest. repeat split; try assumption.
        intros ? ? ? [].
      - exists ((operator1, func1) :: before), operator, after.
        specialize (Hlt m1 func1 eq_refl).
        repeat split; try assumption.
        + intros m0 f0 Hm0. specialize (Hfound m0 f0 Hm0). lia.
        + intros operator' func m' [[= <- <-]|Hin] Hexec'; [|eauto].
          assert (m' = m1) as -> by congruence. exact Hlt. }
    destruct found as [[m0 f0]|].
    2:{ assert (forall m0 f0, @None (Match * (number -> number -> number)) = Some (m0, f0) ->
                             index m1 < index m0) as Hvac by discriminate.
        specialize (Hnew Hvac).
        destruct (selectMatch equation rest (Some (m1, func1))) as [[m f]|];
          [right; exact Hnew|contradiction]. }
    destruct (Z.ltb_spec (index m1) (index m0)) as [Hlt|Hge].
    + assert (forall m2 f2, Some (m0, f0) = Some (m2, f2) -> index m1 < index m2) as Hfound
          by (intros ? ? [= <- <-]; exact Hlt).
      specialize (Hnew Hfound).
      destruct (selectMatch equation rest (Some (m1, func1))) as [[m f]|];
        [right; exact Hnew|contradiction].
    + clear Hnew. specialize (IH (Some (m0, f0))).
      destruct (selectMatch equation rest (Some (m0, f0))) as [[m f]|];
        [|destruct IH; discriminate].
      destruct IH as [[[= <- <-] Hrest]|(before & operator & after & -> & Hexec & Hlt & Hb & Ha)].
      * left. split; [reflexivity|].
        intros operator' func m' [[= <- <-]|Hin] Hexec'; [|eauto].
        assert (m' = m1) as -> by congruence. exact Hge.
      * right. exists ((operator1, func1) :: before), operator, after.
        specialize (Hlt m0 f0 eq_refl).
        repeat split; try assumption.
        -- intros ? ? [= <- <-]. exact Hlt.
        -- intros operator' func m' [[= <- <-]|Hin] Hexec'; [|eauto].
           assert (m' = m1) as -> by congruence. lia.
Qed.

(** The first tier with a match decides. *)
Lemma firstMatch_spec (tiers : list (list Operation)) :
  match firstMatch equation tiers with
  | None =>
      forall operation operator func,
        In operation tiers -> In (operator, func) operation ->
        exec (operationRegExp operator) equation = None
  | Some found =>
      exists earlier operation later,
        tiers = (earlier ++ operation :: later)%list /\
        selectMatch equation operation None = Some found /\
        forall operation' operator func,
          In operation' earlier -> In (operator, func) operation' ->
          exec (operationRegExp operator) equation = None
  end.
Proof.
  induction tiers as [|operation rest IH]; cbn [firstMatch].
  - intros ? ? ? [].
  - pose proof (selectMatch_spec operation None) as Hsel.
    destruct (selectMatch equation operation None) as [[m f]|] eqn:Hselect.
    + exists [], operation, rest. repeat split; [assumption|]. intros ? ? ? [].
    + destruct Hsel as [_ Hnone].
      destruct (firstMatch equation rest) as [found|].
      * destruct IH as (earlier & operation' & later & -> & Hselect' & Hearlier).
        exists (operation :: earlier), operation', later. repeat split; [assumption|].
        intros operation'' operator func [<-|Hin] Hin'; eauto.
      * intros operation' operator func [<-|Hin] Hin'; eauto.
Qed.

End Selection.

(** ** Variables that hold no formula *)

Lemma substituteVariables_memoized `{JSNumber}
      (self self' : string -> Variables -> option (list string) -> Outcome Value * Variables)
      (fuel : nat) (equation : string) (variables : Variables)
      (dependencies : list string) :
  (forall x entry formula, variables !! x = Some entry -> value entry <> Str formula) ->
  substituteVariables self fuel equation variables dependencies
  = substituteVariables self' fuel equation variables dependencies /\
  snd (substituteVariables self fuel equation variables dependencies) = variables.
Proof.
  intros Hnone. revert equation.
  induction fuel as [|fuel IH]; intros equation; [split; reflexivity|].
  cbn [substituteVariables].
  destruct (RegExp.exec VARIABLEREG equation) as [variable|].
  2:{ destruct (checkParentheses equation); split; reflexivity. }
  destruct (variables !! RegExp.matched variable) as [entry|] eqn:Hentry;
    [|split; reflexivity].
  destruct (value entry) as [|formula|n] eqn:Hvalue; [split; reflexivity| |].
  - exfalso. eapply Hnone; eassumption.
  - destruct (disabled entry); [split; reflexivity|].
    destruct (bool_decide _); [split; reflexivity|].
    destruct (String.eqb _ _); [split; reflexivity|]. apply IH.
Qed.

(** ** The claims *)

(** C9. Whatever the outcome of a call to [evaluateEquation] (it returns,
    it throws, or it is cut short), the variables mapping it leaves has the
    keys it had before, and every entry has the [name], [disabled] and
    [comment] it had: only [value] properties of existing entries are
    written. *)
Theorem evaluateEquation_frame `{JSNumber} (fuel : nat) (equation : string)
        (variables : Variables) (dependencies : option (list string)) :
  let variables' := snd (evaluateEquation fuel equation variables dependencies) in
  dom variables' = dom variables /\
  forall x entry,
    variables !! x = Some entry ->
    exists entry',
      variables' !! x = Some entry' /\ name entry' = name entry /\
      disabled entry' = disabled entry /\ comment entry' = comment entry.
Proof.
  pose proof (evaluateEquation_changes fuel equation variables dependencies) as Hch.
  split.
  - eapply changes_dom, Hch.
  - intros x entry. eapply changes_fields, Hch.
Qed.

(** C10. No rollback. Part 1: when the leftmost identifier of the equation
    is an enabled variable whose formula evaluates to the Number [n], the
    variable holds [n] when the call is over, however the call ends, in
    particular when it throws later on. Part 2: a value that is a Number
    when the call starts is the value when it is over. Part 3:
    [evaluateEquation("x+y", {x: {value: "2"}})] throws the error of an
    undefined variable for [y] and leaves [x.value] the Number 2. *)
Theorem evaluateEquation_no_rollback :
  (forall `{JSNumber} (fuel fuel' : nat) (equation : string)
          (variables variables1 : Variables) (dependencies : list string)
          (variable : RegExp.Match) (entry : Variable_) (formula : string) (n : number),
      let x := RegExp.matched variable in
      RegExp.exec VARIABLEREG (stripped equation) = Some variable ->
      variables !! x = Some entry ->
      value entry = Str formula -> disabled entry = false -> (x ∉ dependencies) ->
      evaluateEquation fuel formula variables (Some (dependencies ++ [x])%list)
      = (Returned (Num n), variables1) ->
      (fuel < fuel')%nat ->
      value <$> snd (evaluateEquation fuel' equation variables (Some dependencies)) !! x
      = Some (Num n)) /\
  (forall `{JSNumber} (fuel : nat) (equation : string) (variables : Variables)
          (dependencies : option (list string)) (x : string) (entry : Variable_)
          (n : number),
      variables !! x = Some entry -> value entry = Num n ->
      snd (evaluateEquation fuel equation variables dependencies) !! x = Some entry) /\
  (forall (approx : spec_float -> spec_float -> spec_float) (fuel : nat),
      evaluateEquation (H := Binary64.Numbers approx) (5 + fuel) "x+y"
                       {[ "x" := valueOnly (Str "2") ]} None
      = (Thrown (FailedToSubstitute "y"),
         {[ "x" := valueOnly (Num (H := Binary64.Numbers approx) (ofZ 2)) ]})).
Proof.
  split; [|split].
  - intros N fuel fuel' equation variables variables1 dependencies variable entry
           formula n x Hexec Hentry Hvalue Hdisabled Hx Hcall Hlt.
    destruct fuel as [|fuel]; [discriminate|].
    destruct fuel' as [|[|fuel']]; [lia..|].
    rewrite evaluateEquation_S. change (default [] (Some dependencies)) with dependencies.
    cbn [substituteVariables]. rewrite Hexec. fold x. rewrite Hentry, Hvalue, Hdisabled.
    rewrite bool_decide_eq_false_2 by assumption.
    pose proof (evaluateEquation_changes (S fuel) formula variables
                  (Some (dependencies ++ [x])%list)) as Hch.
    rewrite (evaluateEquation_fuel (S fuel) (S fuel'))
      by (lia || (rewrite Hcall; discriminate)).
    rewrite Hcall in *.
    change (default [] (Some (dependencies ++ [x])%list)) with (dependencies ++ [x])%list in Hch.
    cbn [snd] in Hch.
    assert (variables1 !! x = Some entry) as Hentry1.
    { rewrite <- Hentry. eapply changes_stack; [exact Hch|].
      apply elem_of_app. right. apply list_elem_of_singleton. reflexivity. }
    assert (alter (setValue (Num n)) x variables1 !! x = Some (setValue (Num n) entry))
      as Hwritten by (rewrite lookup_alter_eq, Hentry1; reflexivity).
    destruct (String.eqb _ _); cbn [snd].
    + rewrite Hwritten. reflexivity.
    + rewrite (changes_Num dependencies (alter (setValue (Num n)) x variables1) _ x
                             (setValue (Num n) entry) n);
        [reflexivity| |exact Hwritten|reflexivity].
      apply substituteVariables_changes.
      intros f v d. apply evaluateEquation_changes.
  - intros N fuel equation variables dependencies x entry n Hentry Hvalue.
    eapply changes_Num; [apply evaluateEquation_changes|exact Hentry|exact Hvalue].
  - intros approx fuel. apply evaluateEquation_enough; [reflexivity|discriminate].
Qed.

(** Part 1 of C10 at ["x+y"] with [x = "2"]. *)
Lemma evaluateEquation_no_rollback_witness :
  value <$> snd (evaluateEquation (H := Binary64.Numbers noApprox) 5 "x+y"
                                  {[ "x" := valueOnly (Str "2") ]} (Some []))
            !! "x"
  = Some (Num (H := Binary64.Numbers noApprox) (ofZ 2)).
Proof.
  refine (proj1 evaluateEquation_no_rollback (Binary64.Numbers noApprox) 4%nat 5%nat "x+y"
            {[ "x" := valueOnly (Str "2") ]}
            {[ "x" := valueOnly (Str "2") ]} []
            {| RegExp.index := 0; RegExp.matched := "x"; RegExp.groups := [] |}
            (valueOnly (Str "2")) "2" (ofZ 2) _ _ _ _ _ _ _).
  - reflexivity.
  - reflexivity.
  - reflexivity.
  - reflexivity.
  - apply not_elem_of_nil.
  - reflexivity.
  - lia.
Defined.

(** C8. [parseValue] never coerces silently. A text that is empty or made
    of white space only is not converted (the conversion of the reference
    Numbers would give 0): the error of line 223 is thrown, by [parseValue]
    and by [evaluateEquation] on every such equation, [""] among them. A
    text with another character whose conversion is [NaN] gets the error of
    line 228, and any other text is returned as its Number. The residual
    text of [evaluateOperations], when no pattern of any tier matches, goes
    to [parseValue] as it is. *)
Theorem parseValue_never_coerces :
  (forall `{JSNumber} (text : string),
      every JSString.isWhiteSpace text = true ->
      parseValue text = Thrown (EmptyString_ text) /\
      kind (EmptyString_ text) = EmptyExpression) /\
  (forall (text : string),
      every JSString.isWhiteSpace text = true ->
      Binary64.StringToNumber text = S754_zero false) /\
  (forall `{JSNumber} (fuel : nat) (equation : string) (variables : Variables)
          (dependencies : option (list string)),
      every JSString.isWhiteSpace equation = true ->
      evaluateEquation (4 + fuel) equation variables dependencies
      = (Thrown (EmptyString_ equation), variables)) /\
  (forall `{JSNumber} (fuel : nat) (variables : Variables)
          (dependencies : option (list string)),
      evaluateEquation (4 + fuel) "" variables dependencies
      = (Thrown (EmptyString_ ""), variables)) /\
  (forall `{JSNumber} (text : string),
      every JSString.isWhiteSpace text = false -> isNaN (Number text) = true ->
      parseValue text = Thrown (FailedToParse text) /\
      kind (FailedToParse text) = ParseFailure) /\
  (forall `{JSNumber} (text : string),
      every JSString.isWhiteSpace text = false -> isNaN (Number text) = false ->
      parseValue text = Returned (Number text)) /\
  (forall `{JSNumber} (fuel : nat) (text : string),
      firstMatch text OPERATIONPRIORITY = None ->
      evaluateOperations (S fuel) text = parseValue text).
Proof.
  repeat apply conj.
  - intros N text Hblank. split; [|reflexivity].
    unfold parseValue. rewrite trim_blank by assumption. reflexivity.
  - intros text Hblank. unfold Binary64.StringToNumber.
    rewrite trim_blank by assumption. reflexivity.
  - intros N fuel equation variables dependencies. apply evaluateEquation_blank.
  - intros N fuel variables dependencies. apply evaluateEquation_blank. reflexivity.
  - intros N text Hnonblank Hnan. split; [|reflexivity]. unfold parseValue.
    rewrite (proj2 (String.eqb_neq _ _)) by (apply trim_nonblank, Hnonblank).
    rewrite Hnan. reflexivity.
  - intros N text Hnonblank Hnan. unfold parseValue.
    rewrite (proj2 (String.eqb_neq _ _)) by (apply trim_nonblank, Hnonblank).
    rewrite Hnan. reflexivity.
  - intros N fuel text Hnone. cbn [evaluateOperations]. rewrite Hnone. reflexivity.
Qed.

(** C7. Once no identifier is left in the equation, the two parentheses
    are counted, and when the counts differ the error of line 103 or 105 is
    thrown. Part 1: [substituteVariables] throws it with any budget, also
    one that leaves none for [resolveParentheses], which is therefore not
    entered; the variables are as they were. Part 2: the same for
    [evaluateEquation]. Part 3: a value that [substituteVariables] returns
    comes from [resolveParentheses] on a text without identifiers in which
    the counts are equal. Part 4: [evaluateEquation("(2+3")] throws the
    error of line 103. *)
Theorem checkParentheses_before_resolution :
  (forall `{JSNumber}
          (self : string -> Variables -> option (list string) -> Outcome Value * Variables)
          (fuel : nat) (equation : string) (variables : Variables)
          (dependencies : list string),
      RegExp.exec VARIABLEREG equation = None ->
      occurrences "(" equation <> occurrences ")" equation ->
      substituteVariables self (S fuel) equation variables dependencies
      = (Thrown (mismatch equation), variables) /\
      kind (mismatch equation) = ParenthesisMismatch) /\
  (forall `{JSNumber} (fuel : nat) (equation : string) (variables : Variables)
          (dependencies : option (list string)),
      RegExp.exec VARIABLEREG (stripped equation) = None ->
      occurrences "(" (stripped equation) <> occurrences ")" (stripped equation) ->
      evaluateEquation (2 + fuel) equation variables dependencies
      = (Thrown (mismatch (stripped equation)), variables)) /\
  (forall `{JSNumber}
          (self : string -> Variables -> option (list string) -> Outcome Value * Variables)
          (fuel : nat) (equation : string) (variables variables' : Variables)
          (dependencies : list string) (v : Value),
      substituteVariables self fuel equation variables dependencies
      = (Returned v, variables') ->
      exists text fuel',
        RegExp.exec VARIABLEREG text = None /\
        occurrences "(" text = occurrences ")" text /\
        resolveParentheses fuel' text = Returned v) /\
  (forall `{JSNumber} (fuel : nat) (variables : Variables),
      evaluateEquation (2 + fuel) "(2+3" variables None
      = (Thrown (MoreOpening "(2+3"), variables)).
Proof.
  assert (Hstep : forall `{JSNumber} self fuel equation (variables : Variables) dependencies,
             RegExp.exec VARIABLEREG equation = None ->
             occurrences "(" equation <> occurrences ")" equation ->
             substituteVariables self (S fuel) equation variables dependencies
             = (Thrown (mismatch equation), variables)).
  { intros N self fuel equation variables dependencies Hexec Hne.
    cbn [substituteVariables]. rewrite Hexec, checkParentheses_mismatch by assumption.
    reflexivity. }
  repeat apply conj.
  - intros N self fuel equation variables dependencies Hexec Hne.
    split; [apply Hstep; assumption|].
    unfold mismatch. destruct (_ <? _)%nat; reflexivity.
  - intros N fuel equation variables dependencies Hexec Hne.
    change (2 + fuel)%nat with (S (S fuel)). rewrite evaluateEquation_S.
    apply Hstep; assumption.
  - intros N. apply substituteVariables_returned.
  - intros N fuel variables.
    change (2 + fuel)%nat with (S (S fuel)). rewrite evaluateEquation_S.
    apply (Hstep N); [reflexivity|discriminate].
Qed.

(** C6. The checks on the leftmost identifier [x] of the equation, in the
    order of lines 67-77. Part 1: when [variables] has no entry for [x],
    or the entry has no value, the error of line 68 is thrown, whether
    the entry is disabled or not and whether [x] is on the dependency
    stack or not. Part 2: otherwise, when the entry is disabled, the error
    of line 72 is thrown, whether [x] is on the stack or not, and with any
    [self] and any budget: the value of the variable is not evaluated.
    Part 3: the same two facts for [evaluateEquation]. Part 4:
    [evaluateEquation("x", {x: {value: "1", disabled: true}})] throws the
    error of a disabled variable. In each case the variables are as they
    were. *)
Theorem substituteVariables_check_order :
  (forall `{JSNumber}
          (self : string -> Variables -> option (list string) -> Outcome Value * Variables)
          (fuel : nat) (equation : string) (variables : Variables)
          (dependencies : list string) (variable : RegExp.Match),
      RegExp.exec VARIABLEREG equation = Some variable ->
      (variables !! RegExp.matched variable = None \/
       exists entry, variables !! RegExp.matched variable = Some entry /\
                     value entry = Undefined) ->
      substituteVariables self (S fuel) equation variables dependencies
      = (Thrown (FailedToSubstitute (RegExp.matched variable)), variables) /\
      kind (FailedToSubstitute (RegExp.matched variable)) = UndefinedVariable) /\
  (forall `{JSNumber}
          (self : string -> Variables -> option (list string) -> Outcome Value * Variables)
          (fuel : nat) (equation : string) (variables : Variables)
          (dependencies : list string) (variable : RegExp.Match) (entry : Variable_),
      RegExp.exec VARIABLEREG equation = Some variable ->
      variables !! RegExp.matched variable = Some entry ->
      value entry <> Undefined -> disabled entry = true ->
      substituteVariables self (S fuel) equation variables dependencies
      = (Thrown (VariableIsDisabled (RegExp.matched variable) equation), variables) /\
      kind (VariableIsDisabled (RegExp.matched variable) equation) = DisabledVariable) /\
  (forall `{JSNumber} (fuel : nat) (equation : string) (variables : Variables)
          (dependencies : option (list string)) (variable : RegExp.Match),
      RegExp.exec VARIABLEREG (stripped equation) = Some variable ->
      match variables !! RegExp.matched variable with
      | None =>
          evaluateEquation (2 + fuel) equation variables dependencies
          = (Thrown (FailedToSubstitute (RegExp.matched variable)), variables)
      | Some entry =>
          match value entry with
          | Undefined =>
              evaluateEquation (2 + fuel) equation variables dependencies
              = (Thrown (FailedToSubstitute (RegExp.matched variable)), variables)
          | _ =>
              disabled entry = true ->
              evaluateEquation (2 + fuel) equation variables dependencies
              = (Thrown (VariableIsDisabled (RegExp.matched variable) (stripped equation)),
                 variables)
          end
      end) /\
  (forall `{JSNumber} (fuel : nat),
      let variables : Variables :=
        {[ "x" := {| name := None; value := Str "1"; disabled := true; comment := None |} ]} in
      evaluateEquation (2 + fuel) "x" variables None
      = (Thrown (VariableIsDisabled "x" "x"), variables)).
Proof.
  assert (Hundefined :
            forall `{JSNumber} self fuel equation (variables : Variables) dependencies variable,
              RegExp.exec VARIABLEREG equation = Some variable ->
              (variables !! RegExp.matched variable = None \/
               exists entry, variables !! RegExp.matched variable = Some entry /\
                             value entry = Undefined) ->
              substituteVariables self (S fuel) equation variables dependencies
              = (Thrown (FailedToSubstitute (RegExp.matched variable)), variables)).
  { intros N self fuel equation variables dependencies variable Hexec Hentry.
    cbn [substituteVariables]. rewrite Hexec.
    destruct Hentry as [->|(entry & -> & ->)]; reflexivity. }
  assert (Hdisabled :
            forall `{JSNumber} self fuel equation (variables : Variables) dependencies variable
                   entry,
              RegExp.exec VARIABLEREG equation = Some variable ->
              variables !! RegExp.matched variable = Some entry ->
              value entry <> Undefined -> disabled entry = true ->
              substituteVariables self (S fuel) equation variables dependencies
              = (Thrown (VariableIsDisabled (RegExp.matched variable) equation), variables)).
  { intros N self fuel equation variables dependencies variable entry Hexec Hentry
           Hvalue Hdis.
    cbn [substituteVariables]. rewrite Hexec, Hentry, Hdis.
    destruct (value entry); [contradiction|reflexivity..]. }
  repeat apply conj.
  - intros N self fuel equation variables dependencies variable Hexec Hentry.
    split; [apply Hundefined; assumption|reflexivity].
  - intros N self fuel equation variables dependencies variable entry Hexec Hentry
           Hvalue Hdis.
    split; [eapply Hdisabled; eassumption|reflexivity].
  - intros N fuel equation variables dependencies variable Hexec.
    change (2 + fuel)%nat with (S (S fuel)). rewrite evaluateEquation_S.
    destruct (variables !! RegExp.matched variable) as [entry|] eqn:Hentry.
    + destruct (value entry) eqn:Hvalue.
      * apply Hundefined; [assumption|]. right. exists entry. auto.
      * intros Hdis. eapply Hdisabled; try eassumption. congruence.
      * intros Hdis. eapply Hdisabled; try eassumption. congruence.
    + apply Hundefined; auto.
  - intros N fuel variables.
    change (2 + fuel)%nat with (S (S fuel)). rewrite evaluateEquation_S.
    apply (Hdisabled N _ _ "x" _ _
                     {| RegExp.index := 0; RegExp.matched := "x"; RegExp.groups := [] |}
                     {| name := None; value := Str "1"; disabled := true; comment := None |});
      [reflexivity|reflexivity|discriminate|reflexivity].
Qed.

(** C4. The dependency stack holds no name twice. A stack is [stackOK]
    when it is duplicate-free and each of its names is an enabled variable
    whose value is a string; the empty stack of a top-level call is.
    Part 1: from a call with such a stack, every call the evaluator makes
    to itself, at any depth, has such a stack again; calls with other
    stacks could answer anything ([junk]) without a change to the result.
    Part 2: with such a stack, when the leftmost identifier of the
    equation is on it, the error of line 76 is thrown, with any [self] and
    any budget: nothing is evaluated and nothing is appended, and the
    variables are as they were. Part 3: an identifier is appended only
    when it is not on the stack, which keeps the stack duplicate-free.
    Parts 4 and 5: [evaluateEquation("a", {a: {value: "a+1"}})] and a
    cycle through two variables throw that error. *)
Theorem dependencies_never_duplicate :
  (forall `{JSNumber} (junk : Outcome Value * Variables) (fuel : nat) (equation : string)
          (variables : Variables) (dependencies : option (list string)),
      stackOK variables (default [] dependencies) ->
      NoDup (default [] dependencies) /\
      evaluateEquation fuel equation variables dependencies
      = evaluateEquationGuarded junk fuel equation variables dependencies) /\
  (forall `{JSNumber}
          (self : string -> Variables -> option (list string) -> Outcome Value * Variables)
          (fuel : nat) (equation : string) (variables : Variables)
          (dependencies : list string) (variable : RegExp.Match),
      stackOK variables dependencies ->
      RegExp.exec VARIABLEREG equation = Some variable ->
      (RegExp.matched variable ∈ dependencies) ->
      substituteVariables self (S fuel) equation variables dependencies
      = (Thrown (CyclicalDependency (RegExp.matched variable) equation), variables) /\
      kind (CyclicalDependency (RegExp.matched variable) equation) = CyclicDependency) /\
  (forall `{JSNumber} (variables : Variables) (dependencies : list string) (x : string)
          (entry : Variable_) (formula : string),
      stackOK variables [] /\
      (stackOK variables dependencies -> (x ∉ dependencies) ->
       variables !! x = Some entry -> value entry = Str formula ->
       disabled entry = false ->
       stackOK variables (dependencies ++ [x])%list)) /\
  (forall `{JSNumber} (fuel : nat),
      let variables : Variables := {[ "a" := valueOnly (Str "a+1") ]} in
      evaluateEquation (3 + fuel) "a" variables None
      = (Thrown (CyclicalDependency "a" "a+1"), variables)) /\
  (forall `{JSNumber} (fuel : nat),
      let variables : Variables :=
        <[ "a" := valueOnly (Str "b*2") ]> {[ "b" := valueOnly (Str "a+1") ]} in
      evaluateEquation (4 + fuel) "a" variables None
      = (Thrown (CyclicalDependency "a" "a+1"), variables)).
Proof.
  repeat apply conj.
  - intros N junk fuel equation variables dependencies Hok.
    split; [apply Hok|apply evaluateEquation_guarded, Hok].
  - intros N self fuel equation variables dependencies variable Hok Hexec Hx.
    split; [apply substituteVariables_cyclic; assumption|reflexivity].
  - intros N variables dependencies x entry formula.
    split; [apply stackOK_nil|apply stackOK_push].
  - intros N fuel variables. apply evaluateEquation_enough; [reflexivity|discriminate].
  - intros N fuel variables. apply evaluateEquation_enough; [reflexivity|discriminate].
Qed.

(** C3. The operation [evaluateOperations] applies. Part 1: the tiers, in
    the order they are scanned. Part 2: the match that is chosen is the
    match of an operator of the first tier in which some operator has a
    match; in that tier, the matches of the operators declared before the
    chosen one start further right, and those of the operators declared
    after it do not start further left: it is the leftmost match, and of
    two matches that start at the same place the one of the operator
    declared first. Part 3: nothing is chosen only when no operator of any
    tier has a match. Part 4: after the result is put in place of the
    match, [evaluateOperations] runs on the new text, from the first tier.
    Part 5: in ["3*--2+4"] only [+] has a match at first; once it is
    applied, [*] of the tier before is applied to the new text. *)
Theorem evaluateOperations_selection :
  (forall `{JSNumber},
      map (map fst) OPERATIONPRIORITY = [["^"]; ["*"; "//"; "/"; "%"]; ["+"; "-"]]) /\
  (forall `{JSNumber} (equation : string) (m : RegExp.Match)
          (f : number -> number -> number),
      firstMatch equation OPERATIONPRIORITY = Some (m, f) ->
      exists earlier before operator after later,
        OPERATIONPRIORITY
        = (earlier ++ (before ++ (operator, f) :: after) :: later)%list /\
        RegExp.exec (operationRegExp operator) equation = Some m /\
        (forall operation operator' func,
            In operation earlier -> In (operator', func) operation ->
            RegExp.exec (operationRegExp operator') equation = None) /\
        (forall operator' func m',
            In (operator', func) before ->
            RegExp.exec (operationRegExp operator') equation = Some m' ->
            RegExp.index m < RegExp.index m') /\
        (forall operator' func m',
            In (operator', func) after ->
            RegExp.exec (operationRegExp operator') equation = Some m' ->
            RegExp.index m <= RegExp.index m')) /\
  (forall `{JSNumber} (equation : string),
      firstMatch equation OPERATIONPRIORITY = None ->
      forall operation operator func,
        In operation OPERATIONPRIORITY -> In (operator, func) operation ->
        RegExp.exec (operationRegExp operator) equation = None) /\
  (forall `{JSNumber} (fuel : nat) (equation : string) (m : RegExp.Match)
          (f : number -> number -> number) (a b : number),
      firstMatch equation OPERATIONPRIORITY = Some (m, f) ->
      parseValue (groupOf m "a") = Returned a ->
      parseValue (groupOf m "b") = Returned b ->
      let updated :=
        JSString.slice equation 0 (RegExp.index m) ++ toString (f a b)
          ++ JSString.sliceFrom equation (RegExp.index m + JSString.len (RegExp.matched m)) in
      updated <> equation ->
      evaluateOperations (S fuel) equation = evaluateOperations fuel updated) /\
  (forall (approx : spec_float -> spec_float -> spec_float) (fuel : nat),
      firstMatch (H := Binary64.Numbers approx) "3*--2+4" (firstn 2 OPERATIONPRIORITY) = None /\
      evaluateOperations (H := Binary64.Numbers approx) (3 + fuel) "3*--2+4"
      = Returned (ofZ (-6))).
Proof.
  repeat apply conj.
  - reflexivity.
  - intros N equation m f Hfirst.
    pose proof (firstMatch_spec equation OPERATIONPRIORITY) as Hspec.
    rewrite Hfirst in Hspec.
    destruct Hspec as (earlier & operation & later & Htiers & Hselect & Hearlier).
    pose proof (selectMatch_spec equation operation None) as Hsel.
    rewrite Hselect in Hsel.
    destruct Hsel as [[[=] _]|(before & operator & after & -> & Hexec & _ & Hb & Ha)].
    exists earlier, before, operator, after, later. auto.
  - intros N equation Hfirst.
    pose proof (firstMatch_spec equation OPERATIONPRIORITY) as Hspec.
    rewrite Hfirst in Hspec. exact Hspec.
  - intros N fuel equation m f a b Hfirst Ha Hb updated Hupdated.
    cbn [evaluateOperations]. rewrite Hfirst, Ha. cbn [bind]. rewrite Hb. cbn [bind].
    fold updated. rewrite (proj2 (String.eqb_neq _ _)) by congruence. reflexivity.
  - intros approx fuel. split; [reflexivity|].
    assert (evaluateOperations (H := Binary64.Numbers approx) 3 "3*--2+4"
            = Returned (ofZ (-6))) as Hrun by reflexivity.
    rewrite (evaluateOperations_fuel 3 (3 + fuel)); [exact Hrun|lia|].
    rewrite Hrun. discriminate.
Qed.

(** C5. With [a = {value: "b+1"}] and [b = {value: "2"}],
    [evaluateEquation("a", variables)] returns 3 and leaves the Numbers 3
    and 2 as the values of [a] and [b] (part 1). A later evaluation of
    ["a"] or ["b"] with these variables returns the Number without a call
    to [evaluateEquation] for the variable: [substituteVariables] gives it
    with any [self] (parts 2 and 3). That holds of any equation once no
    variable holds a string: [self] is not called and the variables stay
    as they are (part 4). *)
Theorem evaluateEquation_memoizes :
  (forall (approx : spec_float -> spec_float -> spec_float) (fuel : nat),
      let variables : gmap string (Variable_ (H := Binary64.Numbers approx)) :=
        <[ "a" := valueOnly (Str "b+1") ]> {[ "b" := valueOnly (Str "2") ]} in
      let memoized : gmap string (Variable_ (H := Binary64.Numbers approx)) :=
        <[ "a" := valueOnly (Num (H := Binary64.Numbers approx) (ofZ 3)) ]>
          {[ "b" := valueOnly (Num (H := Binary64.Numbers approx) (ofZ 2)) ]} in
      evaluateEquation (7 + fuel) "a" variables None
      = (Returned (Num (H := Binary64.Numbers approx) (ofZ 3)), memoized) /\
      (forall self,
          substituteVariables self (4 + fuel) "a" memoized []
          = (Returned (Num (H := Binary64.Numbers approx) (ofZ 3)), memoized)) /\
      (forall self,
          substituteVariables self (4 + fuel) "b" memoized []
          = (Returned (Num (H := Binary64.Numbers approx) (ofZ 2)), memoized))) /\
  (forall `{JSNumber}
          (self self' : string -> Variables -> option (list string) -> Outcome Value * Variables)
          (fuel : nat) (equation : string) (variables : Variables)
          (dependencies : list string),
      (forall x entry formula, variables !! x = Some entry -> value entry <> Str formula) ->
      substituteVariables self fuel equation variables dependencies
      = substituteVariables self' fuel equation variables dependencies /\
      snd (substituteVariables self fuel equation variables dependencies) = variables).
Proof.
  split.
  - intros approx fuel variables memoized. repeat apply conj.
    + apply evaluateEquation_enough; [reflexivity|discriminate].
    + intros self.
      rewrite (substituteVariables_fuel self self 4 (4 + fuel));
        [reflexivity|reflexivity|lia|discriminate].
    + intros self.
      rewrite (substituteVariables_fuel self self 4 (4 + fuel));
        [reflexivity|reflexivity|lia|discriminate].
  - intros N. apply substituteVariables_memoized.
Qed.

(** C2. With no variables, [evaluateEquation] returns 5 for ["2+3"], 14
    for ["2+3*4"], 20 for ["(2+3)*4"], 8 for ["2^3"], 3 for ["7//2"] and 1
    for ["7%2"], on the reference Numbers. *)
Theorem evaluateEquation_arithmetic
        (approx : spec_float -> spec_float -> spec_float) (fuel : nat) :
  let evaluate (equation : string) :=
    evaluateEquation (H := Binary64.Numbers approx) (8 + fuel) equation ∅ None in
  let returns (z : Z) :=
    (Returned (Num (H := Binary64.Numbers approx) (ofZ z)),
     ∅ : gmap string (Variable_ (H := Binary64.Numbers approx))) in
  evaluate "2+3" = returns 5 /\
  evaluate "2+3*4" = returns 14 /\
  evaluate "(2+3)*4" = returns 20 /\
  evaluate "2^3" = returns 8 /\
  evaluate "7//2" = returns 3 /\
  evaluate "7%2" = returns 1.
Proof.
  cbv zeta.
  repeat apply conj; (apply evaluateEquation_enough; [reflexivity|discriminate]).
Qed.

(** C1. [evaluateEquation("1)(2")] does not return a Number: the two
    parentheses are one of each, so [checkParentheses] lets the equation
    through, and as the [)] comes first, [resolveParentheses] returns the
    concatenation of line 131, the string ["1(2"], which is what
    [evaluateEquation] returns. *)
Theorem evaluateEquation_returns_string
        (approx : spec_float -> spec_float -> spec_float) (fuel : nat) :
  checkParentheses "1)(2" = None /\
  evaluateEquation (H := Binary64.Numbers approx) (5 + fuel) "1)(2" ∅ None
  = (Returned (Str "1(2"), ∅).
Proof.
  split; [reflexivity|].
  apply evaluateEquation_enough; [reflexivity|discriminate].
Qed.
